(** * ocm-operator: the reconciliation core

    A shallow embedding of
      - controllers/controllers.go            (module [controllers])
      - pkg/conditions/identity_provider.go   (module [conditions])
      - pkg/kubernetes (fake client)          (module [kubernetes])
      - controllers/ldapidentityprovider/phases.go
                                              (module [ldapidentityprovider])

    Part I holds the definitions, Part II the theorems.

    Go values are modelled as follows.
      - [error] (an interface value that may be nil) is [option error];
        [None] is Go's [nil].
      - A function that mutates an object through a pointer returns the
        mutated object.
      - A call that leaves the process (Kubernetes API, OpenShift Cluster
        Manager, event recorder) is answered by the world [W] and is
        appended to a log of calls, so that "calls X exactly once" is a
        statement about that log.
      - Logging through [request.Log] has no effect on control flow and is
        left out. *)

From Stdlib Require Import ZArith Lia Ascii.
From stdpp Require Import base decidable option list strings.

Local Open Scope string_scope.
Local Open Scope list_scope.

(** ** Go errors *)

Module goerrors.

(** The concrete error values the program builds: [errors.New(text)] and
    [fmt.Errorf] with a single [%w] verb, which keeps the formatted text
    and the wrapped error.  Errors that come from outside (the API server,
    OCM) are values of this type too. *)
Inductive error : Type :=
| errorString (s : string)
| wrapError (msg : string) (err : error).

#[global] Instance error_eq_dec : EqDecision error.
Proof. solve_decision. Defined.

(** [err.Error()] *)
Definition Error (e : error) : string :=
  match e with
  | errorString s => s
  | wrapError msg _ => msg
  end.

(** [errors.New] *)
Definition New (text : string) : error := errorString text.

(** [fmt.Errorf(prefix + "%w", err)]: the text is the prefix followed by
    [err.Error()], and the result unwraps to [err]. *)
Definition Errorf (prefix : string) (err : error) : error :=
  wrapError (prefix +:+ Error err) err.

(** [errors.Unwrap] *)
Definition Unwrap (e : error) : option error :=
  match e with
  | errorString _ => None
  | wrapError _ err => Some err
  end.

(** [errors.Is]: [target] occurs in the chain of [e]. *)
Fixpoint Is (e target : error) : bool :=
  bool_decide (e = target) ||
  match e with
  | errorString _ => false
  | wrapError _ err => Is err target
  end.

End goerrors.

Import goerrors.

(** ** A state monad for code that talks to the world *)

Definition State (S A : Type) : Type := S -> A * S.

Definition ret {S A : Type} (a : A) : State S A := fun s => (a, s).

Definition bind {S A B : Type} (m : State S A) (k : A -> State S B) : State S B :=
  fun s => let (a, s') := m s in k a s'.

Notation "'let*' x ':=' m 'in' k" := (bind m (fun x => k))
  (at level 10, x pattern, m at level 100, k at level 200).

(** What a run of [m] from [s] returns, and the state it leaves. *)
Definition result_of {S A : Type} (m : State S A) (s : S) : A := fst (m s).
Definition state_after {S A : Type} (m : State S A) (s : S) : S := snd (m s).

(** A world [W] together with the log of the calls made so far. *)
Record Logged (W C : Type) : Type := mkLogged { world : W; calls : list C }.
Arguments mkLogged {W C} _ _.
Arguments world {W C} _.
Arguments calls {W C} _.

(** One call: it is appended to the log and the world answers it. *)
Definition call {W C A : Type} (c : C) (answer : W -> A * W) : State (Logged W C) A :=
  fun s => let (a, w') := answer (world s) in
           (a, mkLogged w' (calls s ++ [c])).

(** How many logged calls satisfy [p]. *)
Definition count_calls {C : Type} (p : C -> bool) (l : list C) : nat :=
  length (List.filter p l).

(** ** sigs.k8s.io/controller-runtime: results and requests *)

Module ctrl.

(** [time.Duration]: nanoseconds. *)
Definition Duration : Type := Z.
Definition Second : Duration := 1000000000%Z.

(** [ctrl.Result] *)
Record Result : Type := mkResult { Requeue : bool; RequeueAfter : Duration }.

#[global] Instance Result_eq_dec : EqDecision Result.
Proof. solve_decision. Defined.

(** [ctrl.Request] / [reconcile.Request]: the namespaced name. *)
Record Request : Type := mkRequest { Namespace : string; Name : string }.

End ctrl.

(** ** The standard library's [strings] package *)

Module strings.

(** [strings.ToLower] on ASCII text, which is what kinds and API groups
    are made of: the bytes ['A'..'Z'] move to ['a'..'z'], every other byte
    stays.  On text with bytes of 128 and above Go's function also lowers
    the letters outside ASCII, which this one does not: what is stated
    about the value of [ToLower] is stated for text that [isASCII]. *)
Definition lower (c : ascii) : ascii :=
  let n := nat_of_ascii c in
  if (65 <=? n)%nat && (n <=? 90)%nat then ascii_of_nat (n + 32) else c.

Fixpoint ToLower (s : string) : string :=
  match s with
  | EmptyString => EmptyString
  | String c rest => String (lower c) (ToLower rest)
  end.

(** The text is made of ASCII characters: every byte is below 128. *)
Fixpoint isASCII (s : string) : bool :=
  match s with
  | EmptyString => true
  | String c rest => (nat_of_ascii c <? 128)%nat && isASCII rest
  end.

End strings.

(** ** pkg/kubernetes: the client the controllers talk to *)

Module kubernetes.

(** The [Client] interface, as far as the reconciliation core uses it.
    [Patch r object original] is
    [r.Patch(ctx, object, client.MergeFrom(original))] and
    [StatusPatch r object original] is
    [r.Status().Patch(ctx, object, client.MergeFrom(original))]; each
    answers with an error or nil, and the object in memory stays as the
    caller made it. *)
Record Client (S T : Type) : Type := mkClient {
  Patch : T -> T -> State S (option error);
  StatusPatch : T -> T -> State S (option error)
}.
Arguments mkClient {S T} _ _.
Arguments Patch {S T} _ _ _.
Arguments StatusPatch {S T} _ _ _.

(** [FakeClient]: every call succeeds and does nothing. *)
Definition FakeClient {S T : Type} : Client S T :=
  mkClient (fun _ _ => ret None) (fun _ _ => ret None).

(** Modelled from the spec: [kubernetes.PatchStatus] is not part of these
    sources; section 6 gives [ObjectStore.PatchStatus(original, mutated)],
    "merge-patch limited to the status sub-resource". *)
Definition PatchStatus {S T : Type} (r : Client S T) (original updated : T)
  : State S (option error) :=
  StatusPatch r updated original.

(** The calls a client receives. *)
Inductive Call (T : Type) : Type :=
| PatchCall (object original : T)
| StatusPatchCall (object original : T).
Arguments PatchCall {T} _ _.
Arguments StatusPatchCall {T} _ _.

Definition isPatch {T : Type} (c : Call T) : bool :=
  match c with PatchCall _ _ => true | StatusPatchCall _ _ => false end.

(** A client over the world [W], with every call it receives logged
    through [inj]. *)
Definition logged {W C T : Type} (inj : Call T -> C) (r : Client W T)
  : Client (Logged W C) T :=
  mkClient
    (fun object original =>
       call (inj (PatchCall object original)) (Patch r object original))
    (fun object original =>
       call (inj (StatusPatchCall object original)) (StatusPatch r object original)).

(** The same, the log being the client's own calls. *)
Definition recording {W T : Type} (r : Client W T) : Client (Logged W (Call T)) T :=
  logged (fun c => c) r.

(** The patch calls in a log. *)
Definition patches {W T : Type} (s : Logged W (Call T)) : nat :=
  count_calls isPatch (calls s).

End kubernetes.

(** ** Objects *)

(** [client.Object], as far as the core uses it.  [GetKind] and [GetGroup]
    are [object.GetObjectKind().GroupVersionKind().Kind] and [.Group];
    [DeepCopyObject o] is [o.DeepCopyObject().(client.Object)], [None] when
    the type assertion fails.  The laws say that the finalizers are a field
    of their own and that the copy of a client object is such an object,
    equal to the original. *)
Class ClientObject (T : Type) : Type := {
  GetKind : T -> string;
  GetGroup : T -> string;
  GetFinalizers : T -> list string;
  SetFinalizers : list string -> T -> T;
  DeepCopyObject : T -> option T;
  GetFinalizers_SetFinalizers : forall f o, GetFinalizers (SetFinalizers f o) = f;
  GetKind_SetFinalizers : forall f o, GetKind (SetFinalizers f o) = GetKind o;
  GetGroup_SetFinalizers : forall f o, GetGroup (SetFinalizers f o) = GetGroup o;
  DeepCopyObject_Some : forall o, DeepCopyObject o = Some o
}.

(** ** sigs.k8s.io/controller-runtime/pkg/controller/controllerutil *)

Module controllerutil.

Section Finalizers.
Context {T : Type} `{ClientObject T}.

(** Appends the finalizer unless the object has it. *)
Definition AddFinalizer (o : T) (finalizer : string) : T :=
  if bool_decide (finalizer ∈ GetFinalizers o) then o
  else SetFinalizers (GetFinalizers o ++ [finalizer]) o.

(** Drops every occurrence of the finalizer. *)
Definition RemoveFinalizer (o : T) (finalizer : string) : T :=
  SetFinalizers (filter (fun e => e <> finalizer) (GetFinalizers o)) o.

End Finalizers.

End controllerutil.

(** ** pkg/utils *)

Module utils.

(** Modelled from the spec: [utils.ContainsString] is not part of these
    sources; section 4.2 reads it as "the deterministic token is already
    present" in the finalizer set. *)
Definition ContainsString (slice : list string) (s : string) : bool :=
  bool_decide (s ∈ slice).

End utils.

(** ** pkg/triggers *)

Module triggers.

(** The package is not part of these sources.  The core uses a trigger
    type with its [String] method, the trigger [Delete], the three strings
    the dispatcher switches on and the sentinel error [ErrTriggerUnknown];
    they are taken as given. *)
Record Package : Type := mkPackage {
  Trigger : Type;
  String : Trigger -> string;
  Delete : Trigger;
  CreateString : string;
  UpdateString : string;
  DeleteString : string;
  ErrTriggerUnknown : error
}.

(** The case labels of a Go [switch] are distinct constants (the compiler
    refuses a duplicate one). *)
Definition distinct_cases (tr : Package) : Prop :=
  CreateString tr <> UpdateString tr /\
  CreateString tr <> DeleteString tr /\
  UpdateString tr <> DeleteString tr.

End triggers.

(** ** k8s.io/apimachinery/pkg/apis/meta/v1 *)

Module metav1.

(** [metav1.Time], as a number of seconds. *)
Definition Time : Type := Z.

Inductive ConditionStatus : Type := ConditionTrue | ConditionFalse | ConditionUnknown.

#[global] Instance ConditionStatus_eq_dec : EqDecision ConditionStatus.
Proof. solve_decision. Defined.

(** [metav1.Condition]; the field [Type] is spelled [Type_]. *)
Record Condition : Type := mkCondition {
  Type_ : string;
  Status : ConditionStatus;
  Reason : string;
  Message : string;
  LastTransitionTime : Time
}.

#[global] Instance Condition_eq_dec : EqDecision Condition.
Proof. solve_decision. Defined.

End metav1.

(** [controllers.Workload]: a client object that carries conditions. *)
Class Workload (T : Type) `{ClientObject T} : Type := {
  GetConditions : T -> list metav1.Condition;
  SetConditions : list metav1.Condition -> T -> T
}.

(** ** pkg/conditions *)

Module conditions.
Import metav1.

Definition identityProviderConditionTypeDeleted : string := "IdentityProviderDeleted".
Definition identityProviderMessageDeleted : string :=
  "identity provider has been deleted from openshift cluster manager".

(** [IdentityProviderDeleted()]; [now] is what [metav1.Now()] returns. *)
Definition IdentityProviderDeleted (tr : triggers.Package) (now : Time) : Condition :=
  {| Type_ := identityProviderConditionTypeDeleted;
     LastTransitionTime := now;
     Status := ConditionTrue;
     Reason := triggers.String tr (triggers.Delete tr);
     Message := identityProviderMessageDeleted |}.

(** Modelled from the spec: [conditions.IsSet] is not part of these
    sources; section 4.3 gives it as a "pure lookup, used as a guard to skip
    repeating already-completed destructive actions (e.g., skip re-issuing
    a remote delete if a "deleted" condition is already True)": the object
    carries a condition of the given condition's type with its status. *)
Definition IsSet {T : Type} `{Workload T} (condition : Condition) (on : T) : bool :=
  existsb
    (fun existing =>
       bool_decide (Type_ condition = Type_ existing) &&
       bool_decide (Status condition = Status existing))
    (GetConditions on).

(** Modelled from the spec: the condition tracker's [SetCondition] is not
    part of these sources; section 4.3: it "scans existing conditions for
    matching type; if found and status is unchanged, replaces
    message/reason only (transition time untouched); if status differs or
    type is new, replaces/inserts and stamps lastTransitionTime = now". *)
Fixpoint SetCondition (now : Time) (existing : list Condition) (condition : Condition)
  : list Condition :=
  match existing with
  | [] =>
      [{| Type_ := Type_ condition; Status := Status condition;
          Reason := Reason condition; Message := Message condition;
          LastTransitionTime := now |}]
  | c :: rest =>
      if bool_decide (Type_ c = Type_ condition) then
        (if bool_decide (Status c = Status condition) then
           {| Type_ := Type_ c; Status := Status c;
              Reason := Reason condition; Message := Message condition;
              LastTransitionTime := LastTransitionTime c |}
         else
           {| Type_ := Type_ condition; Status := Status condition;
              Reason := Reason condition; Message := Message condition;
              LastTransitionTime := now |}) :: rest
      else c :: SetCondition now rest condition
  end.

(** The recorded condition of a type: the first one in the list. *)
Fixpoint FindCondition (existing : list Condition) (conditionType : string)
  : option Condition :=
  match existing with
  | [] => None
  | c :: rest =>
      if bool_decide (Type_ c = conditionType) then Some c
      else FindCondition rest conditionType
  end.

End conditions.

(** ** controllers/controllers.go *)

Module controllers.

Definition ErrConvertClientObject : error := New "unable to convert to client object".

Definition defaultFinalizerSuffix : string := "finalizer".

(** [Request]: what a reconciliation works on gives back its object. *)
Class Request (Req Obj : Type) : Type := { GetObject : Req -> Obj }.

(** [Controller]: the methods [Reconcile] calls.  Each answers from the
    world [W].  [NewRequest] returns the request or, when its error is not
    nil, the error. *)
Record Controller (W Req : Type) : Type := mkController {
  NewRequest : ctrl.Request -> State W (Req + error);
  ReconcileCreate : Req -> State W (ctrl.Result * option error);
  ReconcileUpdate : Req -> State W (ctrl.Result * option error);
  ReconcileDelete : Req -> State W (ctrl.Result * option error)
}.
Arguments mkController {W Req} _ _ _ _.
Arguments NewRequest {W Req} _ _.
Arguments ReconcileCreate {W Req} _ _.
Arguments ReconcileUpdate {W Req} _ _.
Arguments ReconcileDelete {W Req} _ _.

(** The calls [Reconcile] makes on its controller. *)
Inductive Invocation (Req : Type) : Type :=
| NewRequestCall (req : ctrl.Request)
| ReconcileCreateCall (request : Req)
| ReconcileUpdateCall (request : Req)
| ReconcileDeleteCall (request : Req).
Arguments NewRequestCall {Req} _.
Arguments ReconcileCreateCall {Req} _.
Arguments ReconcileUpdateCall {Req} _.
Arguments ReconcileDeleteCall {Req} _.

Definition isPipeline {Req : Type} (c : Invocation Req) : bool :=
  match c with NewRequestCall _ => false | _ => true end.

(** [RequeueAfter] *)
Definition RequeueAfter (seconds : ctrl.Duration) : ctrl.Result :=
  {| ctrl.Requeue := true; ctrl.RequeueAfter := seconds |}.

(** [NoRequeue]: the blank result. *)
Definition NoRequeue : ctrl.Result :=
  {| ctrl.Requeue := false; ctrl.RequeueAfter := 0%Z |}.

(** [ReconcileError] *)
Definition ReconcileError (request : ctrl.Request) (message : string) (err : option error)
  : option error :=
  match err with
  | None => None
  | Some err =>
      Some (Errorf
              ("request=" +:+ ctrl.Namespace request +:+ "/" +:+ ctrl.Name request +:+
               ", message=" +:+ message +:+ " - ")
              err)
  end.

(** [Reconcile].  [IsNotFound] is [apierrs.IsNotFound] and [GetTrigger] is
    [triggers.GetTrigger], both from outside these sources.  The [switch]
    takes the first case whose string equals [trigger.String()]. *)
Definition Reconcile {W Req Obj : Type} `{Request Req Obj}
    (tr : triggers.Package) (GetTrigger : Obj -> triggers.Trigger tr)
    (IsNotFound : error -> bool)
    (controller : Controller W Req) (req : ctrl.Request)
  : State (Logged W (Invocation Req)) (ctrl.Result * option error) :=
  let* created := call (NewRequestCall req) (NewRequest controller req) in
  match created with
  | inr err =>
      if negb (IsNotFound err) then
        ret (NoRequeue, Some (Errorf "unable to create request - " err))
      else
        ret (NoRequeue, None)
  | inl request =>
      let trigger := GetTrigger (GetObject request) in
      let s := triggers.String tr trigger in
      if bool_decide (s = triggers.CreateString tr) then
        call (ReconcileCreateCall request) (ReconcileCreate controller request)
      else if bool_decide (s = triggers.UpdateString tr) then
        call (ReconcileUpdateCall request) (ReconcileUpdate controller request)
      else if bool_decide (s = triggers.DeleteString tr) then
        call (ReconcileDeleteCall request) (ReconcileDelete controller request)
      else
        ret (NoRequeue,
             ReconcileError req "unable to determine controller trigger"
               (Some (triggers.ErrTriggerUnknown tr)))
  end.

Section Finalizers.
Context {S T : Type} `{ClientObject T}.

(** [FinalizerName] *)
Definition FinalizerName (object : T) : string :=
  strings.ToLower
    (GetKind object +:+ "." +:+ GetGroup object +:+ "/" +:+ defaultFinalizerSuffix).

(** [AddFinalizer]; the object it returns is the caller's object after
    the call. *)
Definition AddFinalizer (r : kubernetes.Client S T) (object : T)
  : State S (T * option error) :=
  if negb (utils.ContainsString (GetFinalizers object) (FinalizerName object)) then
    match DeepCopyObject object with
    | None => ret (object, Some ErrConvertClientObject)
    | Some original =>
        let object := controllerutil.AddFinalizer object (FinalizerName object) in
        let* failed := kubernetes.Patch r object original in
        match failed with
        | Some err => ret (object, Some (Errorf "unable to add finalizer - " err))
        | None => ret (object, None)
        end
    end
  else ret (object, None).

(** [RemoveFinalizer] *)
Definition RemoveFinalizer (r : kubernetes.Client S T) (object : T)
  : State S (T * option error) :=
  if utils.ContainsString (GetFinalizers object) (FinalizerName object) then
    match DeepCopyObject object with
    | None => ret (object, Some ErrConvertClientObject)
    | Some original =>
        let object := controllerutil.RemoveFinalizer object (FinalizerName object) in
        let* failed := kubernetes.Patch r object original in
        match failed with
        | Some err => ret (object, Some (Errorf "unable to remove finalizer - " err))
        | None => ret (object, None)
        end
    end
  else ret (object, None).

(** [AddFinalizer] called twice in sequence on one object: the second call
    works on the object the first one left. *)
Definition AddFinalizerTwice (r : kubernetes.Client S T) (object : T)
  : State S ((T * option error) * (T * option error)) :=
  let* first := AddFinalizer r object in
  let* second := AddFinalizer r (fst first) in
  ret (first, second).

End Finalizers.

End controllers.

(** ** api/v1alpha1: the LDAPIdentityProvider resource *)

Module ocmv1alpha1.

(** The type's declaration is not part of these sources.  The phases name
    five spec fields and two status fields; the spec fields that
    [CopyFrom] fills from the remote entity are kept together as one value
    of a type [L].  Conditions are part of the status. *)
Record LDAPIdentityProviderSpec (L : Type) : Type := mkSpec {
  ClusterName : string;
  DisplayName : string;
  BindPassword_Name : string;
  CA_Name : string;
  MappingMethod : string;
  Remaining : L
}.
Arguments mkSpec {L} _ _ _ _ _ _.
Arguments ClusterName {L} _.
Arguments DisplayName {L} _.
Arguments BindPassword_Name {L} _.
Arguments CA_Name {L} _.
Arguments MappingMethod {L} _.
Arguments Remaining {L} _.

Record LDAPIdentityProviderStatus : Type := mkStatus {
  ClusterID : string;
  ProviderID : string;
  Conditions : list metav1.Condition
}.

Record LDAPIdentityProvider (L : Type) : Type := mkLDAPIdentityProvider {
  Kind : string;
  Group : string;
  Finalizers : list string;
  Spec : LDAPIdentityProviderSpec L;
  Status : LDAPIdentityProviderStatus
}.
Arguments mkLDAPIdentityProvider {L} _ _ _ _ _.
Arguments Kind {L} _.
Arguments Group {L} _.
Arguments Finalizers {L} _.
Arguments Spec {L} _.
Arguments Status {L} _.

#[global] Instance Spec_eq_dec {L : Type} `{EqDecision L}
  : EqDecision (LDAPIdentityProviderSpec L).
Proof. solve_decision. Defined.

#[global] Instance Status_eq_dec : EqDecision LDAPIdentityProviderStatus.
Proof. solve_decision. Defined.

#[global] Instance LDAPIdentityProvider_eq_dec {L : Type} `{EqDecision L}
  : EqDecision (LDAPIdentityProvider L).
Proof. solve_decision. Defined.

(** [&LDAPIdentityProvider{}]: every field at its zero value. *)
Definition empty {L : Type} (zero : L) : LDAPIdentityProvider L :=
  mkLDAPIdentityProvider "" "" [] (mkSpec "" "" "" "" "" zero) (mkStatus "" "" []).

(** Assignments to single fields. *)
Definition withSpec {L : Type} (spec : LDAPIdentityProviderSpec L)
    (o : LDAPIdentityProvider L) : LDAPIdentityProvider L :=
  mkLDAPIdentityProvider (Kind o) (Group o) (Finalizers o) spec (Status o).

Definition withStatus {L : Type} (status : LDAPIdentityProviderStatus)
    (o : LDAPIdentityProvider L) : LDAPIdentityProvider L :=
  mkLDAPIdentityProvider (Kind o) (Group o) (Finalizers o) (Spec o) status.

Definition withFinalizers {L : Type} (finalizers : list string)
    (o : LDAPIdentityProvider L) : LDAPIdentityProvider L :=
  mkLDAPIdentityProvider (Kind o) (Group o) finalizers (Spec o) (Status o).

Definition withConditions {L : Type} (conditions : list metav1.Condition)
    (o : LDAPIdentityProvider L) : LDAPIdentityProvider L :=
  withStatus (mkStatus (ClusterID (Status o)) (ProviderID (Status o)) conditions) o.

(** [DeepCopy]: a copy is the same value. *)
Definition DeepCopy {L : Type} (o : LDAPIdentityProvider L) : LDAPIdentityProvider L := o.

#[global, refine] Instance LDAPIdentityProvider_ClientObject {L : Type}
  : ClientObject (LDAPIdentityProvider L) :=
  {| GetKind := Kind;
     GetGroup := Group;
     GetFinalizers := Finalizers;
     SetFinalizers := withFinalizers;
     DeepCopyObject := fun o => Some (DeepCopy o) |}.
Proof. all: reflexivity. Defined.

#[global] Instance LDAPIdentityProvider_Workload {L : Type}
  : Workload (LDAPIdentityProvider L) :=
  {| GetConditions := fun o => Conditions (Status o);
     SetConditions := withConditions |}.

(** Two specs drift apart when some field differs. *)
Definition drift {L : Type} (a b : LDAPIdentityProviderSpec L) : Prop :=
  ClusterName a <> ClusterName b \/
  DisplayName a <> DisplayName b \/
  BindPassword_Name a <> BindPassword_Name b \/
  CA_Name a <> CA_Name b \/
  MappingMethod a <> MappingMethod b \/
  Remaining a <> Remaining b.

End ocmv1alpha1.

(** ** pkg/ocm: the clients of OpenShift Cluster Manager *)

Module ocm.

(** The package is not part of these sources; these are the calls the
    phases make on it.  [R] is the remote LDAP configuration
    ([idp.LDAP()]) and [B] the builder that [Create] and [Update] take. *)

(** [*clustersmgmtv1.IdentityProvider], as far as the phases read it. *)
Record IdentityProvider (R : Type) : Type := mkIdentityProvider {
  ID : string;
  MappingMethod : string;
  LDAP : R
}.
Arguments mkIdentityProvider {R} _ _ _.
Arguments ID {R} _.
Arguments MappingMethod {R} _.
Arguments LDAP {R} _.

(** [NewIdentityProviderClient(connection, name, clusterID)] *)
Record IdentityProviderClient : Type := NewIdentityProviderClient {
  name : string;
  clusterID : string
}.

(** What the connection answers.  [ClusterGet name] is
    [NewClusterClient(connection, name).Get()] read through [cluster.ID()];
    [Get] answers [None] for "no such identity provider".  A result with a
    non-nil error is the error. *)
Record Connection (W R B : Type) : Type := mkConnection {
  ClusterGet : string -> State W (string + error);
  Get : IdentityProviderClient -> State W (option (IdentityProvider R) + error);
  Create : IdentityProviderClient -> B -> State W (option error);
  Update : IdentityProviderClient -> B -> State W (option error);
  Delete : IdentityProviderClient -> string -> State W (option error)
}.
Arguments mkConnection {W R B} _ _ _ _ _.
Arguments ClusterGet {W R B} _ _.
Arguments Get {W R B} _ _.
Arguments Create {W R B} _ _ _.
Arguments Update {W R B} _ _ _.
Arguments Delete {W R B} _ _ _.

Inductive Call (B : Type) : Type :=
| ClusterGetCall (clusterName : string)
| GetCall (client : IdentityProviderClient)
| CreateCall (client : IdentityProviderClient) (builder : B)
| UpdateCall (client : IdentityProviderClient) (builder : B)
| DeleteCall (client : IdentityProviderClient) (id : string).
Arguments ClusterGetCall {B} _.
Arguments GetCall {B} _.
Arguments CreateCall {B} _ _.
Arguments UpdateCall {B} _ _.
Arguments DeleteCall {B} _ _.

Definition isCreate {B : Type} (c : Call B) : bool :=
  match c with CreateCall _ _ => true | _ => false end.
Definition isUpdate {B : Type} (c : Call B) : bool :=
  match c with UpdateCall _ _ => true | _ => false end.
Definition isDelete {B : Type} (c : Call B) : bool :=
  match c with DeleteCall _ _ => true | _ => false end.

End ocm.

(** ** pkg/events *)

Module events.

Inductive Action : Type := Created | Updated | Deleted.

End events.

(** ** controllers/ldapidentityprovider/phases.go *)

Module ldapidentityprovider.
Import ocmv1alpha1.

Definition defaultLDAPIdentityProviderRequeue : ctrl.Duration := (30 * ctrl.Second)%Z.

(** Declarations the phases use that are not part of these sources, taken
    as given: the zero value of the remaining spec fields, [CopyFrom] and
    [Builder] of api/v1alpha1, the package's error [ErrMissingClusterID],
    and the triggers package. *)
Record Dependencies (L R B : Type) : Type := mkDependencies {
  zero : L;
  CopyFrom : LDAPIdentityProvider L -> R -> LDAPIdentityProvider L;
  Builder : LDAPIdentityProvider L -> string -> string -> B;
  ErrMissingClusterID : error;
  Triggers : triggers.Package
}.
Arguments mkDependencies {L R B} _ _ _ _ _.
Arguments zero {L R B} _.
Arguments CopyFrom {L R B} _ _ _.
Arguments Builder {L R B} _ _ _ _.
Arguments ErrMissingClusterID {L R B} _.
Arguments Triggers {L R B} _.

(** The calls of the phases that leave the process. *)
Inductive Call (L B : Type) : Type :=
| K8sCall (c : kubernetes.Call (LDAPIdentityProvider L))
| OCMCall (c : ocm.Call B)
| RegisterAction (action : events.Action) (object : LDAPIdentityProvider L)
    (arguments : list string).
Arguments K8sCall {L B} _.
Arguments OCMCall {L B} _.
Arguments RegisterAction {L B} _ _ _.

Definition isCreate {L B : Type} (c : Call L B) : bool :=
  match c with OCMCall c => ocm.isCreate c | _ => false end.
Definition isUpdate {L B : Type} (c : Call L B) : bool :=
  match c with OCMCall c => ocm.isUpdate c | _ => false end.
Definition isDelete {L B : Type} (c : Call L B) : bool :=
  match c with OCMCall c => ocm.isDelete c | _ => false end.
Definition isStatusPatch {L B : Type} (c : Call L B) : bool :=
  match c with K8sCall (kubernetes.StatusPatchCall _ _) => true | _ => false end.
Definition isPatch {L B : Type} (c : Call L B) : bool :=
  match c with K8sCall (kubernetes.PatchCall _ _) => true | _ => false end.
Definition isClusterGet {L B : Type} (c : Call L B) : bool :=
  match c with OCMCall (ocm.ClusterGetCall _) => true | _ => false end.
Definition isGet {L B : Type} (c : Call L B) : bool :=
  match c with OCMCall (ocm.GetCall _) => true | _ => false end.
Definition isEvent {L B : Type} (c : Call L B) : bool :=
  match c with RegisterAction _ _ _ => true | _ => false end.

(** [Controller]: the reconciler.  It is the Kubernetes client of its
    requests and holds the OCM connection.  [Now] is [metav1.Now()], and
    [MachinePoolDeleted] is [conditions.MachinePoolDeleted()], which is not
    part of these sources: a condition that may carry the time. *)
Record Controller (W L R B : Type) : Type := mkController {
  Client : kubernetes.Client W (LDAPIdentityProvider L);
  Connection : ocm.Connection W R B;
  Interval : ctrl.Duration;
  Now : State W metav1.Time;
  MachinePoolDeleted : State W metav1.Condition
}.
Arguments mkController {W L R B} _ _ _ _ _.
Arguments Client {W L R B} _.
Arguments Connection {W L R B} _.
Arguments Interval {W L R B} _.
Arguments Now {W L R B} _.
Arguments MachinePoolDeleted {W L R B} _.

(** [LDAPIdentityProviderRequest]: the fields the phases read and write. *)
Record LDAPIdentityProviderRequest (L : Type) : Type := mkRequest {
  Original : LDAPIdentityProvider L;
  Desired : LDAPIdentityProvider L;
  Current : option (LDAPIdentityProvider L);
  OCMClient : ocm.IdentityProviderClient;
  DesiredCA : string;
  DesiredBindPassword : string
}.
Arguments mkRequest {L} _ _ _ _ _ _.
Arguments Original {L} _.
Arguments Desired {L} _.
Arguments Current {L} _.
Arguments OCMClient {L} _.
Arguments DesiredCA {L} _.
Arguments DesiredBindPassword {L} _.

Definition withOriginal {L : Type} (original : LDAPIdentityProvider L)
    (request : LDAPIdentityProviderRequest L) : LDAPIdentityProviderRequest L :=
  mkRequest original (Desired request) (Current request) (OCMClient request)
    (DesiredCA request) (DesiredBindPassword request).

Definition withCurrent {L : Type} (current : option (LDAPIdentityProvider L))
    (request : LDAPIdentityProviderRequest L) : LDAPIdentityProviderRequest L :=
  mkRequest (Original request) (Desired request) current (OCMClient request)
    (DesiredCA request) (DesiredBindPassword request).

Definition withOCMClient {L : Type} (client : ocm.IdentityProviderClient)
    (request : LDAPIdentityProviderRequest L) : LDAPIdentityProviderRequest L :=
  mkRequest (Original request) (Desired request) (Current request) client
    (DesiredCA request) (DesiredBindPassword request).

(** The conditions of package conditions that [Begin] and [Complete]
    record.  Neither [conditions.Reconciling] and [conditions.Reconciled]
    nor the request's [Trigger] they are applied to is part of these
    sources: the two conditions they give for the request at hand are taken
    as given, each possibly carrying the time. *)
Record Progress (W : Type) : Type := mkProgress {
  Reconciling : State W metav1.Condition;
  Reconciled : State W metav1.Condition
}.
Arguments mkProgress {W} _ _.
Arguments Reconciling {W} _.
Arguments Reconciled {W} _.

Section Phases.
Context {W L R B : Type} `{EqDecision L}.
Variable deps : Dependencies L R B.

(** A phase runs on the world with the log of its calls, returns the
    request as it leaves it and the pair the Go function returns. *)
Definition Run (A : Type) : Type := State (Logged W (Call L B)) A.
Definition Outcome : Type :=
  (LDAPIdentityProviderRequest L * (ctrl.Result * option error))%type.

(** The reconciler as the Kubernetes client of the phases. *)
Definition client (r : Controller W L R B)
  : kubernetes.Client (Logged W (Call L B)) (LDAPIdentityProvider L) :=
  kubernetes.logged K8sCall (Client r).

(** A call on OCM. *)
Definition onOCM {A : Type} (c : ocm.Call B) (answer : State W A) : Run A :=
  call (OCMCall c) answer.

(** Reading the world without a call that is logged (the clock). *)
Definition reading {A : Type} (answer : State W A) : Run A :=
  fun s => let (a, w') := answer (world s) in (a, mkLogged w' (calls s)).

(** Modelled from the spec: [request.desired()] is not part of these
    sources; section 4.5: "true iff Current is non-nil and structurally
    equal to Desired per 4.4's equality policy", which is the
    "field-by-field structural comparison between Desired's normalized spec
    and Current's normalized spec". *)
Definition desired (request : LDAPIdentityProviderRequest L) : bool :=
  match Current request with
  | None => false
  | Some current => bool_decide (Spec (Desired request) = Spec current)
  end.

(** Modelled from the spec: [request.updateCondition] is not part of these
    sources; section 4.3: the condition is set on the object and the
    object "persists via a status-only patch", the copy taken before the
    change being the base of the patch. *)
Definition updateCondition (r : Controller W L R B)
    (request : LDAPIdentityProviderRequest L) (condition : metav1.Condition)
  : Run (LDAPIdentityProviderRequest L * option error) :=
  let original := DeepCopy (Original request) in
  let* now := reading (Now r) in
  let updated :=
    SetConditions
      (conditions.SetCondition now (GetConditions (Original request)) condition)
      (Original request) in
  let* failed := kubernetes.PatchStatus (client r) original updated in
  ret (withOriginal updated request, failed).

(** [GetCurrentState] *)
Definition GetCurrentState (r : Controller W L R B)
    (request : LDAPIdentityProviderRequest L) : Run Outcome :=
  let clusterID := ClusterID (Status (Original request)) in
  let* resolved :=
    (if bool_decide (clusterID = "") then
       let* cluster :=
         onOCM (ocm.ClusterGetCall (ClusterName (Spec (Desired request))))
           (ocm.ClusterGet (Connection r) (ClusterName (Spec (Desired request)))) in
       match cluster with
       | inr err =>
           ret (inr (Errorf
                       ("unable to retrieve cluster from ocm [name=" +:+
                        ClusterName (Spec (Desired request)) +:+ "] - ")
                       err))
       | inl id =>
           if bool_decide (id = "") then
             ret (inr (Errorf "missing cluster id in response - "
                         (ErrMissingClusterID deps)))
           else ret (inl id)
       end
     else ret (inl clusterID)) in
  match resolved with
  | inr err =>
      ret (request,
           (controllers.RequeueAfter defaultLDAPIdentityProviderRequeue, Some err))
  | inl clusterID =>
      let request :=
        withOCMClient
          (ocm.NewIdentityProviderClient (DisplayName (Spec (Desired request))) clusterID)
          request in
      let* found :=
        onOCM (ocm.GetCall (OCMClient request))
          (ocm.Get (Connection r) (OCMClient request)) in
      match found with
      | inr err =>
          ret (request,
               (controllers.RequeueAfter defaultLDAPIdentityProviderRequeue,
                Some (Errorf "unable to retrieve identity provider from ocm - " err)))
      | inl None => ret (request, (controllers.NoRequeue, None))
      | inl (Some idp) =>
          let original := DeepCopy (Original request) in
          let updated :=
            withStatus
              (mkStatus clusterID (ocm.ID idp) (Conditions (Status (Original request))))
              (Original request) in
          let request := withOriginal updated request in
          let* failed := kubernetes.PatchStatus (client r) original updated in
          match failed with
          | Some err =>
              ret (request,
                   (controllers.RequeueAfter defaultLDAPIdentityProviderRequeue,
                    Some (Errorf
                            ("unable to update status.providerID=" +:+ ocm.ID idp +:+ " - ")
                            err)))
          | None =>
              let current :=
                withSpec
                  (mkSpec
                     (ClusterName (Spec (Desired request)))
                     (DisplayName (Spec (Desired request)))
                     (BindPassword_Name (Spec (Desired request)))
                     (CA_Name (Spec (Desired request)))
                     (ocm.MappingMethod idp)
                     (zero deps))
                  (empty (zero deps)) in
              let current := CopyFrom deps current (ocm.LDAP idp) in
              ret (withCurrent (Some current) request, (controllers.NoRequeue, None))
          end
      end
  end.

(** [ApplyIdentityProvider] *)
Definition ApplyIdentityProvider (r : Controller W L R B)
    (request : LDAPIdentityProviderRequest L) : Run Outcome :=
  if desired request then ret (request, (controllers.NoRequeue, None))
  else
    let builder :=
      Builder deps (Desired request) (DesiredCA request) (DesiredBindPassword request) in
    match Current request with
    | None =>
        let* failed :=
          onOCM (ocm.CreateCall (OCMClient request) builder)
            (ocm.Create (Connection r) (OCMClient request) builder) in
        match failed with
        | Some err =>
            ret (request,
                 (controllers.RequeueAfter defaultLDAPIdentityProviderRequeue,
                  Some (Errorf "unable to create ldap identity provider in ocm - " err)))
        | None =>
            let* _ :=
              call (RegisterAction events.Created (Original request)
                      [DisplayName (Spec (Desired request));
                       ClusterID (Status (Original request))])
                   (ret tt) in
            ret (request, (controllers.NoRequeue, None))
        end
    | Some _ =>
        let* failed :=
          onOCM (ocm.UpdateCall (OCMClient request) builder)
            (ocm.Update (Connection r) (OCMClient request) builder) in
        match failed with
        | Some err =>
            ret (request,
                 (controllers.RequeueAfter defaultLDAPIdentityProviderRequeue,
                  Some (Errorf "unable to update ldap identity provider in ocm - " err)))
        | None =>
            let* _ :=
              call (RegisterAction events.Updated (Original request)
                      [DisplayName (Spec (Desired request));
                       ClusterID (Status (Original request))])
                   (ret tt) in
            ret (request, (controllers.NoRequeue, None))
        end
    end.

(** [Destroy] *)
Definition Destroy (r : Controller W L R B)
    (request : LDAPIdentityProviderRequest L) : Run Outcome :=
  let* now := reading (Now r) in
  if conditions.IsSet (conditions.IdentityProviderDeleted (Triggers deps) now)
       (Original request)
  then ret (request, (controllers.NoRequeue, None))
  else
    let ocmClient :=
      ocm.NewIdentityProviderClient
        (DisplayName (Spec (Desired request)))
        (ClusterID (Status (Original request))) in
    let* failed :=
      onOCM (ocm.DeleteCall ocmClient (ProviderID (Status (Original request))))
        (ocm.Delete (Connection r) ocmClient (ProviderID (Status (Original request)))) in
    match failed with
    | Some _ =>
        ret (request,
             (controllers.RequeueAfter defaultLDAPIdentityProviderRequeue, None))
    | None =>
        let* _ :=
          call (RegisterAction events.Deleted (Original request)
                  [DisplayName (Spec (Desired request));
                   ClusterID (Status (Original request))])
               (ret tt) in
        let* condition := reading (MachinePoolDeleted r) in
        let* updated := updateCondition r request condition in
        match updated with
        | (request, Some err) =>
            ret (request,
                 (controllers.RequeueAfter defaultLDAPIdentityProviderRequeue,
                  Some (Errorf "error updating reconciling condition - " err)))
        | (request, None) => ret (request, (controllers.NoRequeue, None))
        end
    end.

(** [CompleteDestroy] *)
Definition CompleteDestroy (r : Controller W L R B)
    (request : LDAPIdentityProviderRequest L) : Run Outcome :=
  let* removed := controllers.RemoveFinalizer (client r) (Original request) in
  match removed with
  | (object, Some err) =>
      ret (withOriginal object request,
           (controllers.RequeueAfter defaultLDAPIdentityProviderRequeue,
            Some (Errorf "unable to remove finalizers - " err)))
  | (object, None) => ret (withOriginal object request, (controllers.NoRequeue, None))
  end.

(** The guard of [Destroy]: the object carries a condition of type
    [IdentityProviderDeleted] with status True.  The time the probe
    condition is stamped with plays no part. *)
Definition deleted (object : LDAPIdentityProvider L) : bool :=
  conditions.IsSet (conditions.IdentityProviderDeleted (Triggers deps) 0%Z) object.

(** The first step of [GetCurrentState] resolves the cluster id: it is
    the one recorded in the status, or, none being recorded, the one OCM
    gives for the cluster's name.  [s1] is the state this step leaves. *)
Definition resolves (r : Controller W L R B) (request : LDAPIdentityProviderRequest L)
    (s : Logged W (Call L B)) (clusterID : string) (s1 : Logged W (Call L B)) : Prop :=
  clusterID <> "" /\
  ((ClusterID (Status (Original request)) = clusterID /\ s1 = s) \/
   (ClusterID (Status (Original request)) = "" /\
    exists w1 : W,
      ocm.ClusterGet (Connection r) (ClusterName (Spec (Desired request))) (world s) =
        (inl clusterID, w1) /\
      s1 = mkLogged w1
             (calls s ++ [OCMCall (ocm.ClusterGetCall (ClusterName (Spec (Desired request))))]))).

(** An outcome that carries an error asks for a requeue after the default
    interval. *)
Definition requeues_on_error (outcome : Outcome) : Prop :=
  forall err : error,
    snd (snd outcome) = Some err ->
    fst (snd outcome) = controllers.RequeueAfter defaultLDAPIdentityProviderRequeue.

(** [Begin] *)
Definition Begin (r : Controller W L R B) (progress : Progress W)
    (request : LDAPIdentityProviderRequest L) : Run Outcome :=
  let* condition := reading (Reconciling progress) in
  let* updated := updateCondition r request condition in
  match updated with
  | (request, Some err) =>
      ret (request,
           (controllers.RequeueAfter defaultLDAPIdentityProviderRequeue,
            Some (Errorf "error updating reconciling condition - " err)))
  | (request, None) => ret (request, (controllers.NoRequeue, None))
  end.

(** [Complete] *)
Definition Complete (r : Controller W L R B) (progress : Progress W)
    (request : LDAPIdentityProviderRequest L) : Run Outcome :=
  let* condition := reading (Reconciled progress) in
  let* updated := updateCondition r request condition in
  match updated with
  | (request, Some err) =>
      ret (request,
           (controllers.RequeueAfter defaultLDAPIdentityProviderRequeue,
            Some (Errorf "error updating reconciled condition - " err)))
  | (request, None) => ret (request, (controllers.RequeueAfter (Interval r), None))
  end.

End Phases.

End ldapidentityprovider.

(** ** Worked instances *)

Module instance.
Import metav1 ocmv1alpha1 ldapidentityprovider.

(** An LDAPIdentityProvider with its own token among its finalizers. *)
Definition finalized : LDAPIdentityProvider unit :=
  mkLDAPIdentityProvider
    "LDAPIdentityProvider" "ocm.mobb.redhat.com"
    ["ldapidentityprovider.ocm.mobb.redhat.com/finalizer"]
    (mkSpec "cluster" "ldap" "bind" "ca" "claim" tt)
    (mkStatus "" "" []).

(** The same object before the token was added. *)
Definition fresh : LDAPIdentityProvider unit :=
  withFinalizers [] finalized.

(** Triggers named by their strings. *)
Definition namedTriggers : triggers.Package :=
  triggers.mkPackage string (fun t => t) "Delete" "Create" "Update" "Delete"
    (New "unable to determine trigger").

(** Requests that are the name of their trigger. *)
#[export] Instance namedRequest : controllers.Request string string :=
  {| controllers.GetObject := fun request => request |}.

Definition notFound : error := New "not found".

(** A controller in a world without state: the object named "gone" is not
    found, the one named "broken" cannot be read, and any other name
    gives the request of that name; the update pipeline asks to be run
    again after a minute. *)
Definition namedController : controllers.Controller unit string :=
  controllers.mkController
    (fun req =>
       if bool_decide (ctrl.Name req = "gone") then ret (inr notFound)
       else if bool_decide (ctrl.Name req = "broken") then ret (inr (New "timeout"))
       else ret (inl (ctrl.Name req)))
    (fun _ => ret (controllers.NoRequeue, None))
    (fun _ => ret (controllers.RequeueAfter (60 * ctrl.Second)%Z, None))
    (fun _ => ret (controllers.NoRequeue, None)).

Definition dispatch (name : string) :=
  controllers.Reconcile namedTriggers (fun o : string => o)
    (fun err => bool_decide (err = notFound))
    namedController (ctrl.mkRequest "default" name) (mkLogged tt []).

(** The remaining spec fields and the remote LDAP configuration are a
    URL; the builder is the spec it is built from. *)
Definition urlDependencies
  : Dependencies string string (LDAPIdentityProviderSpec string) :=
  mkDependencies ""
    (fun o remote =>
       withSpec
         (mkSpec (ClusterName (Spec o)) (DisplayName (Spec o))
            (BindPassword_Name (Spec o)) (CA_Name (Spec o)) (MappingMethod (Spec o))
            remote)
         o)
    (fun o _ _ => Spec o)
    (New "missing cluster id")
    namedTriggers.

Definition machinePoolDeleted : Condition :=
  mkCondition "MachinePoolDeleted" ConditionTrue "Delete"
    "machine pool has been deleted from openshift cluster manager" 1700000000%Z.

Definition remote : ocm.IdentityProvider string :=
  ocm.mkIdentityProvider "idp-1" "claim" "ldaps://ldap.example.com".

(** A reconciler in a world without state: the cluster "cluster" has the
    id "c-1", [Get] answers [found], [Delete] answers [deleting], and
    every other call succeeds. *)
Definition reconciler (found : option (ocm.IdentityProvider string))
    (deleting : option error)
  : Controller unit string string (LDAPIdentityProviderSpec string) :=
  mkController kubernetes.FakeClient
    (ocm.mkConnection
       (fun _ => ret (inl "c-1"))
       (fun _ => ret (inl found))
       (fun _ _ => ret None)
       (fun _ _ => ret None)
       (fun _ _ => ret deleting))
    (60 * ctrl.Second)%Z
    (ret 1700000000%Z)
    (ret machinePoolDeleted).

(** The declared object, with and without recorded identifiers. *)
Definition declared (status : LDAPIdentityProviderStatus) : LDAPIdentityProvider string :=
  mkLDAPIdentityProvider "LDAPIdentityProvider" "ocm.mobb.redhat.com"
    ["ldapidentityprovider.ocm.mobb.redhat.com/finalizer"]
    (mkSpec "cluster" "ldap" "bind" "ca" "claim" "ldaps://ldap.example.com")
    status.

Definition unbound : LDAPIdentityProvider string := declared (mkStatus "" "" []).
Definition bound : LDAPIdentityProvider string := declared (mkStatus "c-1" "idp-1" []).

Definition ldapClient : ocm.IdentityProviderClient :=
  ocm.NewIdentityProviderClient "ldap" "c-1".

(** A request on [object] whose current state is [current]. *)
Definition requestOn (object : LDAPIdentityProvider string)
    (current : option (LDAPIdentityProvider string))
  : LDAPIdentityProviderRequest string :=
  mkRequest object object current ldapClient "certificate" "password".

(** The current state as [GetCurrentState] builds it from [remote]. *)
Definition observed (mappingMethod : string) : LDAPIdentityProvider string :=
  withSpec (mkSpec "cluster" "ldap" "bind" "ca" mappingMethod "ldaps://ldap.example.com")
    (empty "").

Definition start : Logged unit (Call string (LDAPIdentityProviderSpec string)) :=
  mkLogged tt [].

(** The object a successful [Destroy] leaves: it carries the condition of
    [MachinePoolDeleted] with status True. *)
Definition destroyed : LDAPIdentityProvider string :=
  declared (mkStatus "c-1" "idp-1" [machinePoolDeleted]).

(** An object that carries the condition the guard of [Destroy] looks
    for. *)
Definition marked : LDAPIdentityProvider string :=
  declared
    (mkStatus "c-1" "idp-1"
       [conditions.IdentityProviderDeleted namedTriggers 1690000000%Z]).

(** A reconciler that cannot reach OCM for the identity provider. *)
Definition unreachable
  : Controller unit string string (LDAPIdentityProviderSpec string) :=
  mkController kubernetes.FakeClient
    (ocm.mkConnection
       (fun _ => ret (inl "c-1"))
       (fun _ => ret (inr (New "connection refused")))
       (fun _ _ => ret None)
       (fun _ _ => ret None)
       (fun _ _ => ret None))
    (60 * ctrl.Second)%Z
    (ret 1700000000%Z)
    (ret machinePoolDeleted).

(** A store that refuses every patch. *)
Definition refusing : kubernetes.Client unit (LDAPIdentityProvider string) :=
  kubernetes.mkClient
    (fun _ _ => ret (Some (New "conflict")))
    (fun _ _ => ret (Some (New "conflict"))).

(** The reconciler [reconciler found deleting] on that store. *)
Definition conflicted (found : option (ocm.IdentityProvider string))
    (deleting : option error)
  : Controller unit string string (LDAPIdentityProviderSpec string) :=
  mkController refusing (Connection (reconciler found deleting))
    (60 * ctrl.Second)%Z (ret 1700000000%Z) (ret machinePoolDeleted).

(** A reconciler for which OCM does not know the cluster ([cluster] is
    the answer of the cluster lookup). *)
Definition lost (cluster : string + error)
  : Controller unit string string (LDAPIdentityProviderSpec string) :=
  mkController kubernetes.FakeClient
    (ocm.mkConnection
       (fun _ => ret cluster)
       (fun _ => ret (inl None))
       (fun _ _ => ret None)
       (fun _ _ => ret None)
       (fun _ _ => ret None))
    (60 * ctrl.Second)%Z
    (ret 1700000000%Z)
    (ret machinePoolDeleted).

(** A reconciler whose OCM refuses every write. *)
Definition readonly
  : Controller unit string string (LDAPIdentityProviderSpec string) :=
  mkController kubernetes.FakeClient
    (ocm.mkConnection
       (fun _ => ret (inl "c-1"))
       (fun _ => ret (inl None))
       (fun _ _ => ret (Some (New "forbidden")))
       (fun _ _ => ret (Some (New "forbidden")))
       (fun _ _ => ret (Some (New "forbidden"))))
    (60 * ctrl.Second)%Z
    (ret 1700000000%Z)
    (ret machinePoolDeleted).

(** The conditions of a pass that reconciles an update. *)
Definition updating : Progress unit :=
  mkProgress
    (ret (mkCondition "Reconciling" ConditionTrue "Update" "reconciling" 1700000000%Z))
    (ret (mkCondition "Reconciled" ConditionTrue "Update" "reconciled" 1700000000%Z)).

End instance.

(** * Part II: theorems *)

Import instance.

(** ** Running the state monad *)

Lemma bind_run {S A B : Type} (m : State S A) (k : A -> State S B) (s s' : S) (a : A) :
  m s = (a, s') -> bind m k s = k a s'.
Proof. intros E. unfold bind. rewrite E. reflexivity. Qed.

Lemma call_run {W C A : Type} (c : C) (answer : State W A) (s : Logged W C) (a : A) (w' : W) :
  answer (world s) = (a, w') -> call c answer s = (a, mkLogged w' (calls s ++ [c])).
Proof. intros E. unfold call. rewrite E. reflexivity. Qed.

Lemma count_calls_app {C : Type} (p : C -> bool) (l1 l2 : list C) :
  count_calls p (l1 ++ l2) = count_calls p l1 + count_calls p l2.
Proof. unfold count_calls. rewrite List.filter_app, length_app. reflexivity. Qed.

Lemma count_calls_nil {C : Type} (p : C -> bool) : count_calls p [] = 0.
Proof. reflexivity. Qed.

Lemma count_calls_one {C : Type} (p : C -> bool) (c : C) :
  count_calls p [c] = if p c then 1 else 0.
Proof. unfold count_calls. simpl. destruct (p c); reflexivity. Qed.

Lemma count_calls_snoc {C : Type} (p : C -> bool) (l : list C) (c : C) :
  count_calls p (l ++ [c]) = count_calls p l + (if p c then 1 else 0).
Proof. rewrite count_calls_app, count_calls_one. reflexivity. Qed.

(** ** Errors *)

Lemma Is_refl (e : error) : Is e e = true.
Proof. destruct e; simpl; rewrite bool_decide_eq_true_2; auto. Qed.

Lemma Is_Errorf (prefix : string) (err target : error) :
  Is err target = true -> Is (Errorf prefix err) target = true.
Proof. intros E. unfold Errorf. simpl. rewrite E. apply orb_true_r. Qed.

Lemma Unwrap_Errorf (prefix : string) (err : error) :
  Unwrap (Errorf prefix err) = Some err.
Proof. reflexivity. Qed.

(** ** The dispatcher *)

Section Dispatcher.
Import controllers.
Context {W Req Obj : Type} `{Request Req Obj}.
Variable tr : triggers.Package.
Variable GetTrigger : Obj -> triggers.Trigger tr.
Variable IsNotFound : error -> bool.
Variable controller : Controller W Req.

(** C10.  [ReconcileError] keeps nil and keeps errors: given nil it
    returns nil; given an error it returns an error that unwraps to it, so
    that whatever the given error is (by [errors.Is]) the returned one is
    too. *)
Theorem ReconcileError_preserves (request : ctrl.Request) (message : string) :
  ReconcileError request message None = None /\
  forall err : error,
    exists wrapped : error,
      ReconcileError request message (Some err) = Some wrapped /\
      Unwrap wrapped = Some err /\
      forall target : error, Is err target = true -> Is wrapped target = true.
Proof.
  split; [reflexivity|].
  intros err. eexists. split; [reflexivity|]. split.
  - apply Unwrap_Errorf.
  - intros target. apply Is_Errorf.
Qed.

(** C9.  When [NewRequest] fails, [Reconcile] returns the blank result:
    with a nil error if the failure is a NotFound, with the failure
    wrapped otherwise.  The only call made on the controller is
    [NewRequest]: no pipeline runs. *)
Theorem Reconcile_NewRequest_failed (req : ctrl.Request)
    (s : Logged W (Invocation Req)) (err : error) (w' : W) :
  NewRequest controller req (world s) = (inr err, w') ->
  Reconcile tr GetTrigger IsNotFound controller req s =
    ((NoRequeue,
      if IsNotFound err then None
      else Some (Errorf "unable to create request - " err)),
     mkLogged w' (calls s ++ [NewRequestCall req])) /\
  count_calls isPipeline
    (calls (state_after (Reconcile tr GetTrigger IsNotFound controller req) s)) =
  count_calls isPipeline (calls s).
Proof.
  intros E.
  assert (R : Reconcile tr GetTrigger IsNotFound controller req s =
    ((NoRequeue,
      if IsNotFound err then None
      else Some (Errorf "unable to create request - " err)),
     mkLogged w' (calls s ++ [NewRequestCall req]))).
  { unfold Reconcile.
    rewrite (bind_run _ _ _ _ _ (call_run _ _ _ _ _ E)).
    destruct (IsNotFound err); reflexivity. }
  split; [exact R|].
  unfold state_after. rewrite R. simpl.
  rewrite count_calls_snoc. simpl. lia.
Qed.

(** C4.  With a request built, [Reconcile] runs the one pipeline whose
    string the trigger has, returning what that pipeline returns; for a
    trigger with none of the three strings it runs no pipeline and returns
    the blank result with an error that wraps [ErrTriggerUnknown]: the
    error [ReconcileError] makes of it, whose text names the request and
    which unwraps to [ErrTriggerUnknown]. *)
Theorem Reconcile_routes (req : ctrl.Request)
    (s : Logged W (Invocation Req)) (request : Req) (w' : W) :
  triggers.distinct_cases tr ->
  NewRequest controller req (world s) = (inl request, w') ->
  let t := triggers.String tr (GetTrigger (GetObject request)) in
  let run := Reconcile tr GetTrigger IsNotFound controller req s in
  let ran (pipeline : Req -> State W (ctrl.Result * option error))
          (c : Invocation Req) :=
    run = (fst (pipeline request w'),
           mkLogged (snd (pipeline request w'))
             (calls s ++ [NewRequestCall req; c])) in
  (t = triggers.CreateString tr ->
     ran (ReconcileCreate controller) (ReconcileCreateCall request)) /\
  (t = triggers.UpdateString tr ->
     ran (ReconcileUpdate controller) (ReconcileUpdateCall request)) /\
  (t = triggers.DeleteString tr ->
     ran (ReconcileDelete controller) (ReconcileDeleteCall request)) /\
  (t <> triggers.CreateString tr ->
   t <> triggers.UpdateString tr ->
   t <> triggers.DeleteString tr ->
     exists wrapped : error,
       run = ((NoRequeue, Some wrapped),
              mkLogged w' (calls s ++ [NewRequestCall req])) /\
       ReconcileError req "unable to determine controller trigger"
         (Some (triggers.ErrTriggerUnknown tr)) = Some wrapped /\
       wrapped =
         wrapError
           (("request=" +:+ ctrl.Namespace req +:+ "/" +:+ ctrl.Name req +:+
             ", message=" +:+ "unable to determine controller trigger" +:+ " - ") +:+
            Error (triggers.ErrTriggerUnknown tr))
           (triggers.ErrTriggerUnknown tr) /\
       Unwrap wrapped = Some (triggers.ErrTriggerUnknown tr) /\
       Is wrapped (triggers.ErrTriggerUnknown tr) = true).
Proof.
  intros (CU & CD & UD) E t run ran.
  assert (step : forall (pipeline : Req -> State W (ctrl.Result * option error)) c,
    call c (pipeline request) (mkLogged w' (calls s ++ [NewRequestCall req])) =
    (fst (pipeline request w'),
     mkLogged (snd (pipeline request w')) (calls s ++ [NewRequestCall req; c]))).
  { intros pipeline c. unfold call. simpl.
    destruct (pipeline request w') as [a w'']. simpl.
    rewrite <- app_assoc. reflexivity. }
  subst ran run. unfold Reconcile.
  rewrite (bind_run _ _ _ _ _ (call_run _ _ _ _ _ E)).
  fold t.
  repeat split.
  - intros Et. rewrite bool_decide_eq_true_2 by exact Et. apply step.
  - intros Et.
    rewrite bool_decide_eq_false_2 by (rewrite Et; auto).
    rewrite bool_decide_eq_true_2 by exact Et. apply step.
  - intros Et.
    rewrite bool_decide_eq_false_2 by (rewrite Et; auto).
    rewrite bool_decide_eq_false_2 by (rewrite Et; auto).
    rewrite bool_decide_eq_true_2 by exact Et. apply step.
  - intros NC NU ND.
    rewrite !bool_decide_eq_false_2 by assumption.
    eexists. split; [reflexivity|].
    split; [reflexivity|]. split.
    + reflexivity.
    + split; [reflexivity|]. apply Is_Errorf, Is_refl.
Qed.

End Dispatcher.

(** ** Finalizers *)

Section FinalizerFacts.
Import controllers.
Context {S T : Type} `{ClientObject T}.
Variable r : kubernetes.Client S T.

Lemma ContainsString_true (slice : list string) (s : string) :
  utils.ContainsString slice s = true <-> s ∈ slice.
Proof. unfold utils.ContainsString. apply bool_decide_eq_true. Qed.

Lemma ContainsString_false (slice : list string) (s : string) :
  utils.ContainsString slice s = false <-> s ∉ slice.
Proof. unfold utils.ContainsString. apply bool_decide_eq_false. Qed.

(** The token depends on the kind and the group only. *)
Lemma FinalizerName_SetFinalizers (f : list string) (object : T) :
  FinalizerName (SetFinalizers f object) = FinalizerName object.
Proof.
  unfold FinalizerName. rewrite GetKind_SetFinalizers, GetGroup_SetFinalizers.
  reflexivity.
Qed.

Lemma FinalizerName_added (object : T) (finalizer : string) :
  FinalizerName (controllerutil.AddFinalizer object finalizer) = FinalizerName object.
Proof.
  unfold controllerutil.AddFinalizer. case_bool_decide; [reflexivity|].
  apply FinalizerName_SetFinalizers.
Qed.

Lemma added_present (object : T) (finalizer : string) :
  finalizer ∈ GetFinalizers (controllerutil.AddFinalizer object finalizer).
Proof.
  unfold controllerutil.AddFinalizer. case_bool_decide; [assumption|].
  rewrite GetFinalizers_SetFinalizers. apply elem_of_app. right. apply list_elem_of_singleton.
  reflexivity.
Qed.

Lemma removed_absent (object : T) (finalizer : string) :
  finalizer ∉ GetFinalizers (controllerutil.RemoveFinalizer object finalizer).
Proof.
  unfold controllerutil.RemoveFinalizer. rewrite GetFinalizers_SetFinalizers.
  intros In. apply list_elem_of_filter in In. destruct In as [Ne _]. apply Ne. reflexivity.
Qed.

(** With the token present [AddFinalizer] does nothing and succeeds. *)
Lemma AddFinalizer_present (object : T) (s : S) :
  FinalizerName object ∈ GetFinalizers object ->
  AddFinalizer r object s = ((object, None), s).
Proof.
  intros In. unfold AddFinalizer.
  apply ContainsString_true in In. rewrite In. reflexivity.
Qed.

(** With the token absent [RemoveFinalizer] does nothing and succeeds. *)
Lemma RemoveFinalizer_absent (object : T) (s : S) :
  FinalizerName object ∉ GetFinalizers object ->
  RemoveFinalizer r object s = ((object, None), s).
Proof.
  intros NotIn. unfold RemoveFinalizer.
  apply ContainsString_false in NotIn. rewrite NotIn. reflexivity.
Qed.

(** With the token absent [AddFinalizer] patches once, whatever the store
    answers, and leaves the token on the object. *)
Lemma AddFinalizer_absent (object : T) (s : S) :
  FinalizerName object ∉ GetFinalizers object ->
  let added := controllerutil.AddFinalizer object (FinalizerName object) in
  AddFinalizer r object s =
    ((added,
      match fst (kubernetes.Patch r added object s) with
      | Some err => Some (Errorf "unable to add finalizer - " err)
      | None => None
      end),
     snd (kubernetes.Patch r added object s)).
Proof.
  intros NotIn added. unfold AddFinalizer.
  apply ContainsString_false in NotIn. rewrite NotIn. simpl.
  rewrite DeepCopyObject_Some. fold added. unfold bind.
  destruct (kubernetes.Patch r added object s) as [[err|] s']; reflexivity.
Qed.

(** With the token present [RemoveFinalizer] patches once and takes the
    token off the object. *)
Lemma RemoveFinalizer_present (object : T) (s : S) :
  FinalizerName object ∈ GetFinalizers object ->
  let removed := controllerutil.RemoveFinalizer object (FinalizerName object) in
  RemoveFinalizer r object s =
    ((removed,
      match fst (kubernetes.Patch r removed object s) with
      | Some err => Some (Errorf "unable to remove finalizer - " err)
      | None => None
      end),
     snd (kubernetes.Patch r removed object s)).
Proof.
  intros In removed. unfold RemoveFinalizer.
  apply ContainsString_true in In. rewrite In.
  rewrite DeepCopyObject_Some. fold removed. unfold bind.
  destruct (kubernetes.Patch r removed object s) as [[err|] s']; reflexivity.
Qed.

(** Whatever the first call did, a second [AddFinalizer] on the object it
    left does nothing and succeeds. *)
Lemma AddFinalizer_again (object : T) (s s1 : S) (first : T * option error) :
  AddFinalizer r object s = (first, s1) ->
  AddFinalizer r (fst first) s1 = ((fst first, None), s1).
Proof.
  intros E. apply AddFinalizer_present.
  destruct (decide (FinalizerName object ∈ GetFinalizers object)) as [In|NotIn].
  - rewrite (AddFinalizer_present object s In) in E. inversion E; subst. exact In.
  - rewrite (AddFinalizer_absent object s NotIn) in E. inversion E; subst. simpl.
    rewrite FinalizerName_added. apply added_present.
Qed.

End FinalizerFacts.

(** *** Calling [AddFinalizer] twice *)

Example FinalizerName_finalized :
  controllers.FinalizerName finalized = "ldapidentityprovider.ocm.mobb.redhat.com/finalizer".
Proof. reflexivity. Qed.

Section FinalizerIdempotence.
Import controllers.
Context {W T : Type} `{ClientObject T}.
Variable store : kubernetes.Client W T.

(** C5, as amended.  For an object that does not carry its token, two
    calls of [AddFinalizer] in sequence issue exactly one patch call, the
    second call returning success on the object the first one left; and
    [RemoveFinalizer] on such an object issues no call and returns
    success. *)
Theorem finalizer_idempotence (object : T) (s : Logged W (kubernetes.Call T)) :
  FinalizerName object ∉ GetFinalizers object ->
  let r := kubernetes.recording store in
  let twice := AddFinalizerTwice r object in
  kubernetes.patches (state_after twice s) = kubernetes.patches s + 1 /\
  snd (result_of twice s) = (fst (fst (result_of twice s)), None) /\
  RemoveFinalizer r object s = ((object, None), s).
Proof.
  intros NotIn r twice.
  split; [|split].
  - subst twice. unfold state_after, AddFinalizerTwice, bind.
    destruct (AddFinalizer r object s) as [first s1] eqn:E1.
    rewrite (AddFinalizer_again r object s s1 first E1). simpl.
    rewrite (AddFinalizer_absent r object s NotIn) in E1.
    inversion E1 as [[E2 E3]]. subst r. unfold kubernetes.recording, kubernetes.logged.
    simpl. unfold call.
    destruct (kubernetes.Patch store _ _ (world s)) as [failed w']. simpl.
    unfold kubernetes.patches. simpl. rewrite count_calls_snoc. reflexivity.
  - subst twice. unfold result_of, AddFinalizerTwice, bind.
    destruct (AddFinalizer r object s) as [first s1] eqn:E1.
    rewrite (AddFinalizer_again r object s s1 first E1). reflexivity.
  - apply RemoveFinalizer_absent. exact NotIn.
Qed.

End FinalizerIdempotence.

(** C5, as stated, fails: on an object that already carries its token two
    calls of [AddFinalizer] issue no patch call at all. *)
Lemma AddFinalizerTwice_present_no_patch :
  ~ (forall (object : ocmv1alpha1.LDAPIdentityProvider unit)
            (s : Logged unit (kubernetes.Call (ocmv1alpha1.LDAPIdentityProvider unit))),
       kubernetes.patches
         (state_after
            (controllers.AddFinalizerTwice (kubernetes.recording kubernetes.FakeClient) object) s) =
       kubernetes.patches s + 1).
Proof.
  intros claim.
  specialize (claim finalized (mkLogged tt [])).
  vm_compute in claim. discriminate claim.
Qed.

Lemma finalizer_idempotence_witness :
  let r := kubernetes.recording (W := unit) kubernetes.FakeClient in
  let twice := controllers.AddFinalizerTwice r fresh in
  let s := mkLogged tt [] in
  kubernetes.patches (state_after twice s) = kubernetes.patches s + 1 /\
  snd (result_of twice s) = (fst (fst (result_of twice s)), None) /\
  controllers.RemoveFinalizer r fresh s = ((fresh, None), s).
Proof.
  apply (finalizer_idempotence kubernetes.FakeClient fresh (mkLogged tt [])).
  vm_compute. intros In. inversion In.
Defined.

(** ** The condition tracker *)

Section ConditionTracker.
Import metav1 conditions.

(** C8.  After a condition is set, the recorded condition of its type has
    its status and message, and its transition time is the one recorded
    before when a condition of that type with that status was recorded
    (whatever the messages), and the current time when the recorded status
    differs or the type is new. *)
Theorem SetCondition_transition_time
    (now : Time) (existing : list Condition) (condition : Condition) :
  exists set : Condition,
    FindCondition (SetCondition now existing condition) (Type_ condition) = Some set /\
    Status set = Status condition /\
    Message set = Message condition /\
    LastTransitionTime set =
      match FindCondition existing (Type_ condition) with
      | Some recorded =>
          if bool_decide (Status recorded = Status condition)
          then LastTransitionTime recorded
          else now
      | None => now
      end.
Proof.
  induction existing as [|c rest IH]; simpl.
  - rewrite bool_decide_eq_true_2 by reflexivity.
    eexists. repeat split; reflexivity.
  - destruct (bool_decide (Type_ c = Type_ condition)) eqn:SameType.
    + apply bool_decide_eq_true in SameType.
      destruct (bool_decide (Status c = Status condition)) eqn:SameStatus; simpl.
      * apply bool_decide_eq_true in SameStatus.
        rewrite bool_decide_eq_true_2 by exact SameType.
        eexists. repeat split; simpl; auto.
      * rewrite bool_decide_eq_true_2 by reflexivity.
        eexists. repeat split; reflexivity.
    + simpl. rewrite SameType. exact IH.
Qed.

(** Setting a condition leaves the conditions of other types alone. *)
Lemma FindCondition_SetCondition_other
    (now : Time) (existing : list Condition) (condition : Condition) (other : string) :
  other <> Type_ condition ->
  FindCondition (SetCondition now existing condition) other =
  FindCondition existing other.
Proof.
  intros Ne. induction existing as [|c rest IH]; simpl.
  - rewrite bool_decide_eq_false_2 by auto. reflexivity.
  - destruct (bool_decide (Type_ c = Type_ condition)) eqn:SameType.
    + apply bool_decide_eq_true in SameType.
      destruct (bool_decide (Status c = Status condition)); simpl;
        rewrite !bool_decide_eq_false_2 by congruence; reflexivity.
    + simpl. rewrite IH. reflexivity.
Qed.

(** A condition that was set is recorded with its status. *)
Lemma SetCondition_records
    (now : Time) (existing : list Condition) (condition : Condition) :
  exists set : Condition,
    FindCondition (SetCondition now existing condition) (Type_ condition) = Some set /\
    Status set = Status condition.
Proof.
  induction existing as [|c rest IH]; simpl.
  - rewrite bool_decide_eq_true_2 by reflexivity. eexists. split; reflexivity.
  - destruct (bool_decide (Type_ c = Type_ condition)) eqn:SameType.
    + apply bool_decide_eq_true in SameType.
      destruct (bool_decide (Status c = Status condition)) eqn:SameStatus; simpl.
      * apply bool_decide_eq_true in SameStatus.
        rewrite bool_decide_eq_true_2 by exact SameType.
        eexists. split; [reflexivity|]. exact SameStatus.
      * rewrite bool_decide_eq_true_2 by reflexivity. eexists. split; reflexivity.
    + simpl. rewrite SameType. exact IH.
Qed.

End ConditionTracker.

(** ** The phases of the LDAP identity provider *)

Section Apply.
Import ocmv1alpha1 ldapidentityprovider controllers.
Context {W L R B : Type} `{EqDecision L}.
Variable deps : Dependencies L R B.
Variable r : ldapidentityprovider.Controller W L R B.

Lemma drift_neq (a b : LDAPIdentityProviderSpec L) : drift a b -> a <> b.
Proof. unfold drift. intros D E. subst b. tauto. Qed.

Lemma neq_drift (a b : LDAPIdentityProviderSpec L) : a <> b -> drift a b.
Proof.
  intros Ne. destruct a as [a1 a2 a3 a4 a5 a6], b as [b1 b2 b3 b4 b5 b6].
  unfold drift. simpl.
  destruct (decide (a1 = b1)); [|tauto].
  destruct (decide (a2 = b2)); [|tauto].
  destruct (decide (a3 = b3)); [|tauto].
  destruct (decide (a4 = b4)); [|tauto].
  destruct (decide (a5 = b5)); [|tauto].
  destruct (decide (a6 = b6)); [|tauto].
  exfalso. apply Ne. congruence.
Qed.

(** [desired] is the equality of the two specs, the current one being
    there. *)
Lemma desired_true (request : LDAPIdentityProviderRequest L) :
  desired request = true <->
  exists current, Current request = Some current /\ Spec current = Spec (Desired request).
Proof.
  unfold desired. destruct (Current request) as [current|].
  - rewrite bool_decide_eq_true. split.
    + intros E. exists current. auto.
    + intros (c & E1 & E2). inversion E1. subst c. auto.
  - split; [discriminate|]. intros (c & E1 & _). discriminate.
Qed.

(** C6.  When the current state is there and its spec equals the desired
    one, [request.desired()] is true and [ApplyIdentityProvider] returns
    the blank result and a nil error, the request, the world and the log
    of calls being as they were: it calls neither [Create] nor [Update]. *)
Theorem ApplyIdentityProvider_idempotent
    (request : LDAPIdentityProviderRequest L) (current : LDAPIdentityProvider L)
    (s : Logged W (Call L B)) :
  Current request = Some current ->
  Spec current = Spec (Desired request) ->
  desired request = true /\
  ApplyIdentityProvider deps r request s = ((request, (NoRequeue, None)), s) /\
  count_calls isCreate (calls (state_after (ApplyIdentityProvider deps r request) s)) =
    count_calls isCreate (calls s) /\
  count_calls isUpdate (calls (state_after (ApplyIdentityProvider deps r request) s)) =
    count_calls isUpdate (calls s).
Proof.
  intros Ecur Espec.
  assert (D : desired request = true).
  { apply desired_true. exists current. auto. }
  assert (A : ApplyIdentityProvider deps r request s = ((request, (NoRequeue, None)), s)).
  { unfold ApplyIdentityProvider. rewrite D. reflexivity. }
  unfold state_after. rewrite A. auto.
Qed.

(** C3.  When the current state is there and its spec differs from the
    desired one in a field, whichever it is, [ApplyIdentityProvider] calls
    [Update] with the desired state's builder, once, and does not call
    [Create]. *)
Theorem ApplyIdentityProvider_drift
    (request : LDAPIdentityProviderRequest L) (current : LDAPIdentityProvider L)
    (s : Logged W (Call L B)) :
  Current request = Some current ->
  drift (Spec current) (Spec (Desired request)) ->
  let builder :=
    Builder deps (Desired request) (DesiredCA request) (DesiredBindPassword request) in
  let s' := state_after (ApplyIdentityProvider deps r request) s in
  count_calls isUpdate (calls s') = count_calls isUpdate (calls s) + 1 /\
  count_calls isCreate (calls s') = count_calls isCreate (calls s) /\
  exists rest,
    calls s' = calls s ++ OCMCall (ocm.UpdateCall (OCMClient request) builder) :: rest /\
    count_calls isUpdate rest = 0.
Proof.
  intros Ecur D builder s'.
  assert (N : desired request = false).
  { unfold desired. rewrite Ecur. apply bool_decide_eq_false.
    intros E. apply (drift_neq _ _ D). symmetry. exact E. }
  assert (C : calls s' = calls s ++ [OCMCall (ocm.UpdateCall (OCMClient request) builder)] \/
              calls s' = calls s ++ [OCMCall (ocm.UpdateCall (OCMClient request) builder);
                                     RegisterAction events.Updated (Original request)
                                       [DisplayName (Spec (Desired request));
                                        ClusterID (Status (Original request))]]).
  { subst s'. unfold state_after, ApplyIdentityProvider.
    rewrite N, Ecur. fold builder. unfold bind, onOCM, call.
    destruct (ocm.Update (Connection r) (OCMClient request) builder (world s))
      as [[err|] w']; simpl.
    - left. reflexivity.
    - right. rewrite <- app_assoc. reflexivity. }
  destruct C as [C|C]; rewrite C.
  - rewrite !count_calls_snoc. simpl. repeat split; try lia.
    exists []. split; reflexivity.
  - rewrite !count_calls_app. unfold count_calls. simpl. repeat split; try lia.
    eexists. split; reflexivity.
Qed.

(** When there is no current state, [ApplyIdentityProvider] calls [Create]
    with the desired state's builder, once, and does not call [Update]. *)
Theorem ApplyIdentityProvider_creates
    (request : LDAPIdentityProviderRequest L) (s : Logged W (Call L B)) :
  Current request = None ->
  let builder :=
    Builder deps (Desired request) (DesiredCA request) (DesiredBindPassword request) in
  let s' := state_after (ApplyIdentityProvider deps r request) s in
  count_calls isCreate (calls s') = count_calls isCreate (calls s) + 1 /\
  count_calls isUpdate (calls s') = count_calls isUpdate (calls s) /\
  exists rest,
    calls s' = calls s ++ OCMCall (ocm.CreateCall (OCMClient request) builder) :: rest /\
    count_calls isCreate rest = 0.
Proof.
  intros Ecur builder s'.
  assert (N : desired request = false).
  { unfold desired. rewrite Ecur. reflexivity. }
  assert (C : calls s' = calls s ++ [OCMCall (ocm.CreateCall (OCMClient request) builder)] \/
              calls s' = calls s ++ [OCMCall (ocm.CreateCall (OCMClient request) builder);
                                     RegisterAction events.Created (Original request)
                                       [DisplayName (Spec (Desired request));
                                        ClusterID (Status (Original request))]]).
  { subst s'. unfold state_after, ApplyIdentityProvider.
    rewrite N, Ecur. fold builder. unfold bind, onOCM, call.
    destruct (ocm.Create (Connection r) (OCMClient request) builder (world s))
      as [[err|] w']; simpl.
    - left. reflexivity.
    - right. rewrite <- app_assoc. reflexivity. }
  destruct C as [C|C]; rewrite C.
  - rewrite !count_calls_snoc. simpl. repeat split; try lia.
    exists []. split; reflexivity.
  - rewrite !count_calls_app. unfold count_calls. simpl. repeat split; try lia.
    eexists. split; reflexivity.
Qed.

End Apply.

Section CurrentState.
Import ocmv1alpha1 ldapidentityprovider controllers.
Context {W L R B : Type} `{EqDecision L}.
Variable deps : Dependencies L R B.
Variable r : ldapidentityprovider.Controller W L R B.

Lemma resolves_no_status_patch (request : LDAPIdentityProviderRequest L)
    (s : Logged W (Call L B)) (clusterID : string) (s1 : Logged W (Call L B)) :
  resolves r request s clusterID s1 ->
  count_calls isStatusPatch (calls s1) = count_calls isStatusPatch (calls s).
Proof.
  intros (_ & [(_ & ->)|(_ & w1 & _ & ->)]); [reflexivity|].
  simpl. rewrite count_calls_snoc. simpl. lia.
Qed.

(** What [GetCurrentState] does up to the answer of [Get]. *)
Lemma GetCurrentState_resolved (request : LDAPIdentityProviderRequest L)
    (s : Logged W (Call L B)) (clusterID : string) (s1 : Logged W (Call L B)) :
  resolves r request s clusterID s1 ->
  let ocmClient :=
    ocm.NewIdentityProviderClient (DisplayName (Spec (Desired request))) clusterID in
  let request1 := withOCMClient ocmClient request in
  GetCurrentState deps r request s =
  (let* found := onOCM (ocm.GetCall ocmClient) (ocm.Get (Connection r) ocmClient) in
   match found with
   | inr err =>
       ret (request1,
            (RequeueAfter defaultLDAPIdentityProviderRequeue,
             Some (Errorf "unable to retrieve identity provider from ocm - " err)))
   | inl None => ret (request1, (NoRequeue, None))
   | inl (Some idp) =>
       let original := DeepCopy (Original request1) in
       let updated :=
         withStatus
           (mkStatus clusterID (ocm.ID idp) (Conditions (Status (Original request1))))
           (Original request1) in
       let request2 := withOriginal updated request1 in
       let* failed := kubernetes.PatchStatus (client r) original updated in
       match failed with
       | Some err =>
           ret (request2,
                (RequeueAfter defaultLDAPIdentityProviderRequeue,
                 Some (Errorf
                         ("unable to update status.providerID=" +:+ ocm.ID idp +:+ " - ")
                         err)))
       | None =>
           let current :=
             withSpec
               (mkSpec
                  (ClusterName (Spec (Desired request2)))
                  (DisplayName (Spec (Desired request2)))
                  (BindPassword_Name (Spec (Desired request2)))
                  (CA_Name (Spec (Desired request2)))
                  (ocm.MappingMethod idp)
                  (zero deps))
               (empty (zero deps)) in
           let current := CopyFrom deps current (ocm.LDAP idp) in
           ret (withCurrent (Some current) request2, (NoRequeue, None))
       end
   end) s1.
Proof.
  intros (NonEmpty & [(Recorded & ->)|(Unset & w1 & Answer & ->)]) ocmClient request1;
    unfold GetCurrentState.
  - rewrite Recorded.
    rewrite bool_decide_eq_false_2 by exact NonEmpty.
    reflexivity.
  - rewrite Unset.
    rewrite bool_decide_eq_true_2 by reflexivity.
    unfold bind at 1. unfold bind at 1. unfold onOCM at 1.
    rewrite (call_run _ _ _ _ _ Answer).
    rewrite bool_decide_eq_false_2 by exact NonEmpty.
    reflexivity.
Qed.

(** C7.  The cluster id being resolved, let [Get] answer without error.
    If it found nothing, [GetCurrentState] returns the blank result and a
    nil error; [Current] and the object are as they were and no status
    patch was sent.  If it found an identity provider, the function sends
    one status patch, of the object with the cluster id and the
    provider's id in its status against the object as it was; when the
    patch succeeds it returns the blank result and a nil error with
    [Current] populated, and when the patch fails it returns the patch's
    error, wrapped, and [Current] is as it was. *)
Theorem GetCurrentState_absent_or_found
    (request : LDAPIdentityProviderRequest L) (s : Logged W (Call L B))
    (clusterID : string) (s1 : Logged W (Call L B))
    (found : option (ocm.IdentityProvider R)) (w2 : W) :
  resolves r request s clusterID s1 ->
  let ocmClient :=
    ocm.NewIdentityProviderClient (DisplayName (Spec (Desired request))) clusterID in
  ocm.Get (Connection r) ocmClient (world s1) = (inl found, w2) ->
  let s2 := mkLogged w2 (calls s1 ++ [OCMCall (ocm.GetCall ocmClient)]) in
  let run := GetCurrentState deps r request s in
  match found with
  | None =>
      run = ((withOCMClient ocmClient request, (NoRequeue, None)), s2) /\
      Current (fst (fst run)) = Current request /\
      Original (fst (fst run)) = Original request /\
      count_calls isStatusPatch (calls (snd run)) = count_calls isStatusPatch (calls s)
  | Some idp =>
      let original := Original request in
      let updated :=
        withStatus (mkStatus clusterID (ocm.ID idp) (Conditions (Status original)))
          original in
      let patch := kubernetes.StatusPatch (Client r) updated original w2 in
      let s3 :=
        mkLogged (snd patch)
          (calls s2 ++ [K8sCall (kubernetes.StatusPatchCall updated original)]) in
      let current :=
        CopyFrom deps
          (withSpec
             (mkSpec
                (ClusterName (Spec (Desired request)))
                (DisplayName (Spec (Desired request)))
                (BindPassword_Name (Spec (Desired request)))
                (CA_Name (Spec (Desired request)))
                (ocm.MappingMethod idp)
                (zero deps))
             (empty (zero deps)))
          (ocm.LDAP idp) in
      let request2 := withOriginal updated (withOCMClient ocmClient request) in
      count_calls isStatusPatch (calls (snd run)) =
        count_calls isStatusPatch (calls s) + 1 /\
      match fst patch with
      | None => run = ((withCurrent (Some current) request2, (NoRequeue, None)), s3)
      | Some err =>
          run = ((request2,
                  (RequeueAfter defaultLDAPIdentityProviderRequeue,
                   Some (Errorf
                           ("unable to update status.providerID=" +:+ ocm.ID idp +:+ " - ")
                           err))),
                 s3)
      end
  end.
Proof.
  intros Res ocmClient Answer s2 run.
  pose proof (resolves_no_status_patch _ _ _ _ Res) as Quiet.
  subst run. rewrite (GetCurrentState_resolved request s clusterID s1 Res).
  fold ocmClient.
  unfold onOCM. rewrite (bind_run _ _ _ _ _ (call_run _ _ _ _ _ Answer)).
  fold s2.
  destruct found as [idp|].
  - simpl. unfold bind, kubernetes.PatchStatus, client, kubernetes.logged. simpl.
    unfold call. simpl. unfold DeepCopy.
    destruct (kubernetes.StatusPatch (Client r) _ _ w2) as [[err|] w3]; simpl;
      (split; [rewrite !count_calls_snoc; simpl; lia | reflexivity]).
  - simpl. repeat split.
    rewrite count_calls_snoc. simpl. lia.
Qed.

(** The current state [GetCurrentState] builds takes the cluster's name,
    the display name and the names of the two secrets from the desired
    state, not from OCM: provided [CopyFrom] leaves them alone, they never
    differ from the desired ones. *)
Lemma GetCurrentState_copies_desired_fields
    (request : LDAPIdentityProviderRequest L) (s : Logged W (Call L B))
    (current : LDAPIdentityProvider L) :
  (forall o remote,
     ClusterName (Spec (CopyFrom deps o remote)) = ClusterName (Spec o) /\
     DisplayName (Spec (CopyFrom deps o remote)) = DisplayName (Spec o) /\
     BindPassword_Name (Spec (CopyFrom deps o remote)) = BindPassword_Name (Spec o) /\
     CA_Name (Spec (CopyFrom deps o remote)) = CA_Name (Spec o)) ->
  Current request = None ->
  Current (fst (fst (GetCurrentState deps r request s))) = Some current ->
  ClusterName (Spec current) = ClusterName (Spec (Desired request)) /\
  DisplayName (Spec current) = DisplayName (Spec (Desired request)) /\
  BindPassword_Name (Spec current) = BindPassword_Name (Spec (Desired request)) /\
  CA_Name (Spec current) = CA_Name (Spec (Desired request)).
Proof.
  intros Keeps Unset.
  unfold GetCurrentState, bind, onOCM, call, kubernetes.PatchStatus, client,
    kubernetes.logged, ret.
  simpl.
  repeat match goal with
         | |- context [match ?x with _ => _ end] => destruct x; simpl
         end;
    try (rewrite Unset; discriminate);
    intros Built; injection Built as <-; exact (Keeps _ _).
Qed.

(** The cluster id being resolved, when [Get] fails [GetCurrentState] asks
    for a requeue after the default interval and returns the error of
    [Get], wrapped; no status patch is sent and [Current] is as it was. *)
Theorem GetCurrentState_Get_failed
    (request : LDAPIdentityProviderRequest L) (s : Logged W (Call L B))
    (clusterID : string) (s1 : Logged W (Call L B)) (err : error) (w2 : W) :
  resolves r request s clusterID s1 ->
  let ocmClient :=
    ocm.NewIdentityProviderClient (DisplayName (Spec (Desired request))) clusterID in
  ocm.Get (Connection r) ocmClient (world s1) = (inr err, w2) ->
  GetCurrentState deps r request s =
    ((withOCMClient ocmClient request,
      (RequeueAfter defaultLDAPIdentityProviderRequeue,
       Some (Errorf "unable to retrieve identity provider from ocm - " err))),
     mkLogged w2 (calls s1 ++ [OCMCall (ocm.GetCall ocmClient)])).
Proof.
  intros Res ocmClient Answer.
  rewrite (GetCurrentState_resolved request s clusterID s1 Res).
  fold ocmClient. unfold onOCM.
  rewrite (bind_run _ _ _ _ _ (call_run _ _ _ _ _ Answer)).
  reflexivity.
Qed.

End CurrentState.

Section Destroying.
Import metav1 ocmv1alpha1 ldapidentityprovider controllers.
Context {W L R B : Type} `{EqDecision L}.
Variable deps : Dependencies L R B.
Variable r : ldapidentityprovider.Controller W L R B.

Lemma IsSet_IdentityProviderDeleted (now : Time) (object : LDAPIdentityProvider L) :
  conditions.IsSet (conditions.IdentityProviderDeleted (Triggers deps) now) object =
  deleted deps object.
Proof. reflexivity. Qed.

(** Setting a condition of another type does not change what [IsSet]
    answers. *)
Lemma IsSet_SetCondition_other (probe condition : Condition) (now : Time)
    (object : LDAPIdentityProvider L) :
  Type_ condition <> Type_ probe ->
  conditions.IsSet probe
    (SetConditions (conditions.SetCondition now (GetConditions object) condition) object) =
  conditions.IsSet probe object.
Proof.
  intros Ne. unfold conditions.IsSet. simpl.
  induction (Conditions (Status object)) as [|c rest IH]; simpl.
  - rewrite bool_decide_eq_false_2 by congruence. reflexivity.
  - destruct (bool_decide (Type_ c = Type_ condition)) eqn:SameType.
    + apply bool_decide_eq_true in SameType.
      destruct (bool_decide (metav1.Status c = metav1.Status condition)); simpl;
        rewrite !(bool_decide_eq_false_2 (Type_ probe = _)) by congruence;
        reflexivity.
    + simpl. rewrite IH. reflexivity.
Qed.

(** The object [updateCondition] leaves. *)
Lemma updateCondition_Original (request : LDAPIdentityProviderRequest L)
    (condition : Condition) (s : Logged W (Call L B)) :
  Original (fst (fst (updateCondition r request condition s))) =
  SetConditions
    (conditions.SetCondition (fst (Now r (world s)))
       (GetConditions (Original request)) condition)
    (Original request).
Proof.
  unfold updateCondition, bind, reading.
  destruct (Now r (world s)) as [now w1]. simpl.
  unfold kubernetes.PatchStatus, client, kubernetes.logged, call. simpl.
  destruct (kubernetes.StatusPatch (Client r) _ _ w1) as [failed w2]. reflexivity.
Qed.

(** With the guard true [Destroy] makes no call and lets the pipeline go
    on. *)
Lemma Destroy_guarded (request : LDAPIdentityProviderRequest L) (s : Logged W (Call L B)) :
  deleted deps (Original request) = true ->
  Destroy deps r request s =
    ((request, (NoRequeue, None)), mkLogged (snd (Now r (world s))) (calls s)).
Proof.
  intros G. unfold Destroy, bind, reading.
  destruct (Now r (world s)) as [now w1]. simpl.
  rewrite IsSet_IdentityProviderDeleted, G. reflexivity.
Qed.

(** With the guard false [Destroy] calls [Delete]; this call is the first
    one it makes. *)
Lemma Destroy_unguarded (request : LDAPIdentityProviderRequest L) (s : Logged W (Call L B)) :
  deleted deps (Original request) = false ->
  let ocmClient :=
    ocm.NewIdentityProviderClient
      (DisplayName (Spec (Desired request))) (ClusterID (Status (Original request))) in
  exists rest,
    calls (state_after (Destroy deps r request) s) =
      calls s ++
      OCMCall (ocm.DeleteCall ocmClient (ProviderID (Status (Original request)))) :: rest /\
    count_calls isDelete rest = 0.
Proof.
  intros G ocmClient. unfold state_after, Destroy, bind, reading.
  destruct (Now r (world s)) as [now w1]. simpl.
  rewrite IsSet_IdentityProviderDeleted, G.
  fold ocmClient. unfold onOCM, call. simpl.
  destruct (ocm.Delete (Connection r) ocmClient _ w1) as [[err|] w2]; simpl.
  - exists []. split; reflexivity.
  - destruct (MachinePoolDeleted r w2) as [condition w3]. simpl.
    unfold updateCondition, bind, reading. simpl.
    destruct (Now r w3) as [now' w4]. simpl.
    unfold kubernetes.PatchStatus, client, kubernetes.logged, call. simpl.
    destruct (kubernetes.StatusPatch (Client r) _ _ w4) as [[err|] w5]; simpl;
      rewrite <- !app_assoc; simpl; eexists; split; reflexivity.
Qed.

(** The one error [Destroy] ever returns is the failure to record the
    condition, wrapped: when it returns an error, the guard was false,
    [Delete] had answered nil, and the error is the one the status patch
    answered under the text "error updating reconciling condition".  A
    failure of [Delete] never reaches the caller. *)
Theorem Destroy_only_error (request : LDAPIdentityProviderRequest L)
    (s : Logged W (Call L B)) (err : error) :
  snd (snd (fst (Destroy deps r request s))) = Some err ->
  let ocmClient :=
    ocm.NewIdentityProviderClient
      (DisplayName (Spec (Desired request))) (ClusterID (Status (Original request))) in
  let deleting :=
    ocm.Delete (Connection r) ocmClient (ProviderID (Status (Original request)))
      (snd (Now r (world s))) in
  let condition := MachinePoolDeleted r (snd deleting) in
  let stamp := Now r (snd condition) in
  let updated :=
    SetConditions
      (conditions.SetCondition (fst stamp) (GetConditions (Original request))
         (fst condition))
      (Original request) in
  let patch := kubernetes.StatusPatch (Client r) updated (Original request) (snd stamp) in
  deleted deps (Original request) = false /\
  fst deleting = None /\
  exists cause : error,
    fst patch = Some cause /\
    err = Errorf "error updating reconciling condition - " cause.
Proof.
  intros Failed ocmClient deleting condition stamp updated patch.
  subst patch updated stamp condition deleting. revert Failed.
  unfold Destroy, bind, reading.
  destruct (Now r (world s)) as [now w1]. simpl.
  rewrite IsSet_IdentityProviderDeleted.
  destruct (deleted deps (Original request)); simpl; [discriminate|].
  unfold onOCM, call. simpl. fold ocmClient.
  destruct (ocm.Delete (Connection r) ocmClient _ w1) as [[failed|] w2]; simpl;
    [discriminate|].
  destruct (MachinePoolDeleted r w2) as [condition w3]. simpl.
  unfold updateCondition, bind, reading. simpl.
  destruct (Now r w3) as [now' w4]. simpl.
  unfold kubernetes.PatchStatus, client, kubernetes.logged, call. simpl.
  unfold DeepCopy.
  destruct (kubernetes.StatusPatch (Client r) _ _ w4) as [[cause|] w5]; simpl;
    [|discriminate].
  intros E. injection E as <-. repeat split. exists cause. split; reflexivity.
Qed.

(** C2.  When the guard is false and [Delete] fails, [Destroy] asks for a
    requeue after the default interval and returns a nil error: the error
    of [Delete] is dropped. *)
Theorem Destroy_Delete_failed (request : LDAPIdentityProviderRequest L)
    (s : Logged W (Call L B)) (err : error) (w2 : W) :
  deleted deps (Original request) = false ->
  let ocmClient :=
    ocm.NewIdentityProviderClient
      (DisplayName (Spec (Desired request))) (ClusterID (Status (Original request))) in
  ocm.Delete (Connection r) ocmClient (ProviderID (Status (Original request)))
    (snd (Now r (world s))) = (Some err, w2) ->
  Destroy deps r request s =
    ((request, (RequeueAfter defaultLDAPIdentityProviderRequeue, None)),
     mkLogged w2
       (calls s ++
        [OCMCall (ocm.DeleteCall ocmClient (ProviderID (Status (Original request))))])).
Proof.
  intros G ocmClient Failed. unfold Destroy, bind, reading.
  destruct (Now r (world s)) as [now w1]. simpl in *.
  rewrite IsSet_IdentityProviderDeleted, G.
  fold ocmClient. unfold onOCM, call. simpl.
  rewrite Failed. reflexivity.
Qed.

(** The object a successful [Destroy] leaves, when the guard was false:
    the object it was given with the condition of [MachinePoolDeleted]
    set. *)
Lemma Destroy_succeeded (request : LDAPIdentityProviderRequest L)
    (s : Logged W (Call L B)) :
  deleted deps (Original request) = false ->
  snd (fst (Destroy deps r request s)) = (NoRequeue, None) ->
  exists (w : W) (now : Time),
    Original (fst (fst (Destroy deps r request s))) =
    SetConditions
      (conditions.SetCondition now (GetConditions (Original request))
         (fst (MachinePoolDeleted r w)))
      (Original request).
Proof.
  intros G. unfold Destroy, bind, reading.
  destruct (Now r (world s)) as [now w1]. simpl.
  rewrite IsSet_IdentityProviderDeleted, G.
  unfold onOCM, call. simpl.
  destruct (ocm.Delete (Connection r) _ _ w1) as [[err|] w2]; simpl;
    [discriminate|].
  destruct (MachinePoolDeleted r w2) as [condition w3] eqn:MP. simpl.
  intros _. exists w2. rewrite MP. simpl.
  match goal with
  | |- context [updateCondition r request condition ?s0] =>
      pose proof (updateCondition_Original request condition s0) as U;
      destruct (updateCondition r request condition s0) as [[request' failed] s']
  end.
  simpl in U. eexists. destruct failed; simpl; exact U.
Qed.

(** C1.  Let [Destroy] run on an object that does not carry the
    condition its guard looks for, and let it succeed: the identity
    provider is deleted and the condition of [MachinePoolDeleted] is
    recorded on the object with its status.  Unless that condition has the
    type [IdentityProviderDeleted], the guard is still false on the object
    [Destroy] leaves, and [Destroy] run again calls [Delete] again. *)
Theorem Destroy_twice_deletes_twice (request : LDAPIdentityProviderRequest L)
    (s : Logged W (Call L B)) :
  deleted deps (Original request) = false ->
  (forall w : W,
     Type_ (fst (MachinePoolDeleted r w)) <> conditions.identityProviderConditionTypeDeleted) ->
  let first := Destroy deps r request s in
  snd (fst first) = (NoRequeue, None) ->
  let second := Destroy deps r (fst (fst first)) (snd first) in
  (exists (w : W) (set : Condition),
     conditions.FindCondition (Conditions (Status (Original (fst (fst first)))))
       (Type_ (fst (MachinePoolDeleted r w))) = Some set /\
     metav1.Status set = metav1.Status (fst (MachinePoolDeleted r w))) /\
  deleted deps (Original (fst (fst first))) = false /\
  count_calls isDelete (calls (snd first)) = count_calls isDelete (calls s) + 1 /\
  count_calls isDelete (calls (snd second)) = count_calls isDelete (calls s) + 2.
Proof.
  intros G Other first Done second.
  destruct (Destroy_succeeded request s G Done) as (w & now & Left).
  fold first in Left.
  assert (G1 : deleted deps (Original (fst (fst first))) = false).
  { rewrite Left. transitivity (deleted deps (Original request)); [|exact G].
    apply (IsSet_SetCondition_other _ (fst (MachinePoolDeleted r w))).
    apply Other. }
  split.
  { exists w. rewrite Left. simpl. apply SetCondition_records. }
  split; [exact G1|].
  destruct (Destroy_unguarded request s G) as (rest1 & C1 & Z1).
  destruct (Destroy_unguarded (fst (fst first)) (snd first) G1) as (rest2 & C2 & Z2).
  unfold state_after in C1, C2. fold first in C1. fold second in C2.
  rewrite C2, C1.
  rewrite !count_calls_app.
  change (?a :: rest1) with ([a] ++ rest1). change (?a :: rest2) with ([a] ++ rest2).
  rewrite !count_calls_app, Z1, Z2, !count_calls_one. simpl. lia.
Qed.

(** [CompleteDestroy] on an object that carries its token sends one patch,
    of the object without the token against the object as it was; it
    returns the blank result and a nil error when the patch succeeds and
    the error, wrapped, with a requeue when it fails.  On an object
    without the token it makes no call and succeeds. *)
Theorem CompleteDestroy_removes_finalizer
    (request : LDAPIdentityProviderRequest L) (s : Logged W (Call L B)) :
  let object := Original request in
  let token := FinalizerName object in
  if bool_decide (token ∈ Finalizers object) then
    (let removed := controllerutil.RemoveFinalizer object token in
     let patch := kubernetes.Patch (Client r) removed object (world s) in
     (token ∉ Finalizers removed) /\
     CompleteDestroy r request s =
       ((withOriginal removed request,
         match fst patch with
         | None => (NoRequeue, None)
         | Some err =>
             (RequeueAfter defaultLDAPIdentityProviderRequeue,
              Some (Errorf "unable to remove finalizers - "
                      (Errorf "unable to remove finalizer - " err)))
         end),
        mkLogged (snd patch) (calls s ++ [K8sCall (kubernetes.PatchCall removed object)])))
  else CompleteDestroy r request s = ((request, (NoRequeue, None)), s).
Proof.
  intros object token. case_bool_decide as In.
  - intros removed patch. split.
    + exact (removed_absent object token).
    + unfold CompleteDestroy, bind.
      rewrite (RemoveFinalizer_present (client r) (Original request) s In).
      subst patch removed token object. simpl. unfold call.
      destruct (kubernetes.Patch (Client r) _ _ (world s)) as [[err|] w']; reflexivity.
  - unfold CompleteDestroy, bind.
    rewrite (RemoveFinalizer_absent (client r) (Original request) s In).
    destruct request; reflexivity.
Qed.

End Destroying.

(** * The theorems on the worked instances *)

(** ** A dispatcher *)

Lemma Reconcile_NewRequest_failed_witness :
  dispatch "gone" =
    ((controllers.NoRequeue, None),
     mkLogged tt [controllers.NewRequestCall (ctrl.mkRequest "default" "gone")]) /\
  count_calls controllers.isPipeline (calls (snd (dispatch "gone"))) = 0.
Proof.
  exact (Reconcile_NewRequest_failed namedTriggers (fun o : string => o)
           (fun err => bool_decide (err = notFound)) namedController
           (ctrl.mkRequest "default" "gone") (mkLogged tt []) notFound tt eq_refl).
Defined.

Example Reconcile_other_failure :
  dispatch "broken" =
    ((controllers.NoRequeue,
      Some (wrapError "unable to create request - timeout" (errorString "timeout"))),
     mkLogged tt [controllers.NewRequestCall (ctrl.mkRequest "default" "broken")]).
Proof. reflexivity. Qed.

Lemma Reconcile_routes_witness :
  dispatch "Update" =
    ((controllers.RequeueAfter (60 * ctrl.Second)%Z, None),
     mkLogged tt
       [controllers.NewRequestCall (ctrl.mkRequest "default" "Update");
        controllers.ReconcileUpdateCall "Update"]).
Proof.
  assert (distinct : triggers.distinct_cases namedTriggers).
  { unfold triggers.distinct_cases. simpl. repeat split; discriminate. }
  destruct (Reconcile_routes namedTriggers (fun o : string => o)
              (fun err => bool_decide (err = notFound)) namedController
              (ctrl.mkRequest "default" "Update") (mkLogged tt []) "Update" tt
              distinct eq_refl)
    as (_ & routed & _).
  apply routed. reflexivity.
Defined.

Example Reconcile_unknown_trigger :
  dispatch "Resync" =
    ((controllers.NoRequeue,
      Some (wrapError
              "request=default/Resync, message=unable to determine controller trigger - unable to determine trigger"
              (errorString "unable to determine trigger"))),
     mkLogged tt [controllers.NewRequestCall (ctrl.mkRequest "default" "Resync")]).
Proof. reflexivity. Qed.

(** ** An LDAP identity provider *)

Lemma ApplyIdentityProvider_idempotent_witness :
  let request := requestOn bound (Some (observed "claim")) in
  ldapidentityprovider.desired request = true /\
  ldapidentityprovider.ApplyIdentityProvider urlDependencies (reconciler None None)
    request start = ((request, (controllers.NoRequeue, None)), start) /\
  count_calls ldapidentityprovider.isCreate
    (calls (state_after
              (ldapidentityprovider.ApplyIdentityProvider urlDependencies
                 (reconciler None None) request) start)) =
    count_calls ldapidentityprovider.isCreate (calls start) /\
  count_calls ldapidentityprovider.isUpdate
    (calls (state_after
              (ldapidentityprovider.ApplyIdentityProvider urlDependencies
                 (reconciler None None) request) start)) =
    count_calls ldapidentityprovider.isUpdate (calls start).
Proof.
  exact (ApplyIdentityProvider_idempotent urlDependencies (reconciler None None)
           (requestOn bound (Some (observed "claim"))) (observed "claim") start
           eq_refl eq_refl).
Defined.

Lemma ApplyIdentityProvider_drift_witness :
  let request := requestOn bound (Some (observed "add")) in
  let s' :=
    state_after
      (ldapidentityprovider.ApplyIdentityProvider urlDependencies
         (reconciler None None) request) start in
  count_calls ldapidentityprovider.isUpdate (calls s') =
    count_calls ldapidentityprovider.isUpdate (calls start) + 1 /\
  count_calls ldapidentityprovider.isCreate (calls s') =
    count_calls ldapidentityprovider.isCreate (calls start) /\
  exists rest,
    calls s' =
      calls start ++
      ldapidentityprovider.OCMCall (ocm.UpdateCall ldapClient (ocmv1alpha1.Spec bound))
      :: rest /\
    count_calls ldapidentityprovider.isUpdate rest = 0.
Proof.
  refine (ApplyIdentityProvider_drift urlDependencies (reconciler None None)
            (requestOn bound (Some (observed "add"))) (observed "add") start
            eq_refl _).
  unfold ocmv1alpha1.drift. simpl. do 4 right. left. discriminate.
Defined.

Example ApplyIdentityProvider_drift_calls :
  calls (state_after
           (ldapidentityprovider.ApplyIdentityProvider urlDependencies
              (reconciler None None) (requestOn bound (Some (observed "add")))) start) =
    [ldapidentityprovider.OCMCall (ocm.UpdateCall ldapClient (ocmv1alpha1.Spec bound));
     ldapidentityprovider.RegisterAction events.Updated bound ["ldap"; "c-1"]].
Proof. reflexivity. Qed.

Example ApplyIdentityProvider_absent_calls :
  calls (state_after
           (ldapidentityprovider.ApplyIdentityProvider urlDependencies
              (reconciler None None) (requestOn bound None)) start) =
    [ldapidentityprovider.OCMCall (ocm.CreateCall ldapClient (ocmv1alpha1.Spec bound));
     ldapidentityprovider.RegisterAction events.Created bound ["ldap"; "c-1"]].
Proof. reflexivity. Qed.

Lemma GetCurrentState_absent_or_found_witness :
  let r := reconciler (Some remote) None in
  let request := requestOn unbound None in
  let run := ldapidentityprovider.GetCurrentState urlDependencies r request start in
  count_calls ldapidentityprovider.isStatusPatch (calls (snd run)) =
    count_calls ldapidentityprovider.isStatusPatch (calls start) + 1 /\
  run =
    ((ldapidentityprovider.mkRequest bound unbound (Some (observed "claim")) ldapClient
        "certificate" "password",
      (controllers.NoRequeue, None)),
     mkLogged tt
       [ldapidentityprovider.OCMCall (ocm.ClusterGetCall "cluster");
        ldapidentityprovider.OCMCall (ocm.GetCall ldapClient);
        ldapidentityprovider.K8sCall (kubernetes.StatusPatchCall bound unbound)]).
Proof.
  refine (GetCurrentState_absent_or_found urlDependencies (reconciler (Some remote) None)
            (requestOn unbound None) start "c-1"
            (mkLogged tt [ldapidentityprovider.OCMCall (ocm.ClusterGetCall "cluster")])
            (Some remote) tt _ eq_refl).
  split; [discriminate|]. right. split; [reflexivity|].
  exists tt. split; reflexivity.
Defined.

Example GetCurrentState_absent :
  ldapidentityprovider.GetCurrentState urlDependencies (reconciler None None)
    (requestOn bound None) start =
    ((requestOn bound None, (controllers.NoRequeue, None)),
     mkLogged tt [ldapidentityprovider.OCMCall (ocm.GetCall ldapClient)]).
Proof. reflexivity. Qed.

Lemma Destroy_Delete_failed_witness :
  ldapidentityprovider.Destroy urlDependencies
    (reconciler None (Some (New "identity provider is in use")))
    (requestOn bound None) start =
    ((requestOn bound None,
      (controllers.RequeueAfter ldapidentityprovider.defaultLDAPIdentityProviderRequeue,
       None)),
     mkLogged tt [ldapidentityprovider.OCMCall (ocm.DeleteCall ldapClient "idp-1")]).
Proof.
  exact (Destroy_Delete_failed urlDependencies
           (reconciler None (Some (New "identity provider is in use")))
           (requestOn bound None) start (New "identity provider is in use") tt
           eq_refl eq_refl).
Defined.

Example Destroy_leaves_destroyed :
  fst (ldapidentityprovider.Destroy urlDependencies (reconciler None None)
         (requestOn bound None) start) =
    (ldapidentityprovider.mkRequest destroyed bound None ldapClient
       "certificate" "password",
     (controllers.NoRequeue, None)).
Proof. reflexivity. Qed.

(** On that object [Destroy] calls [Delete] again. *)
Example Destroy_destroyed_calls_Delete :
  calls (snd (ldapidentityprovider.Destroy urlDependencies (reconciler None None)
                (requestOn destroyed None) start)) =
    [ldapidentityprovider.OCMCall (ocm.DeleteCall ldapClient "idp-1");
     ldapidentityprovider.RegisterAction events.Deleted destroyed ["ldap"; "c-1"];
     ldapidentityprovider.K8sCall (kubernetes.StatusPatchCall destroyed destroyed)].
Proof. reflexivity. Qed.

Lemma Destroy_twice_deletes_twice_witness :
  let r := reconciler None None in
  let first := ldapidentityprovider.Destroy urlDependencies r (requestOn bound None) start in
  let second :=
    ldapidentityprovider.Destroy urlDependencies r (fst (fst first)) (snd first) in
  (exists (w : unit) (set : metav1.Condition),
     conditions.FindCondition
       (ocmv1alpha1.Conditions
          (ocmv1alpha1.Status (ldapidentityprovider.Original (fst (fst first)))))
       (metav1.Type_ (fst (ldapidentityprovider.MachinePoolDeleted r w))) = Some set /\
     metav1.Status set =
       metav1.Status (fst (ldapidentityprovider.MachinePoolDeleted r w))) /\
  ldapidentityprovider.deleted urlDependencies
    (ldapidentityprovider.Original (fst (fst first))) = false /\
  count_calls ldapidentityprovider.isDelete (calls (snd first)) =
    count_calls ldapidentityprovider.isDelete (calls start) + 1 /\
  count_calls ldapidentityprovider.isDelete (calls (snd second)) =
    count_calls ldapidentityprovider.isDelete (calls start) + 2.
Proof.
  refine (Destroy_twice_deletes_twice urlDependencies (reconciler None None)
            (requestOn bound None) start eq_refl _ eq_refl).
  intros w. simpl. discriminate.
Defined.

Lemma Destroy_guarded_witness :
  ldapidentityprovider.Destroy urlDependencies (reconciler None None)
    (requestOn marked None) start =
    ((requestOn marked None, (controllers.NoRequeue, None)), start).
Proof.
  exact (Destroy_guarded urlDependencies (reconciler None None)
           (requestOn marked None) start eq_refl).
Defined.

Example CompleteDestroy_bound :
  ldapidentityprovider.CompleteDestroy (reconciler None None) (requestOn bound None) start =
    ((ldapidentityprovider.mkRequest (ocmv1alpha1.withFinalizers [] bound) bound None
        ldapClient "certificate" "password",
      (controllers.NoRequeue, None)),
     mkLogged tt
       [ldapidentityprovider.K8sCall
          (kubernetes.PatchCall (ocmv1alpha1.withFinalizers [] bound) bound)]).
Proof. reflexivity. Qed.

Lemma ApplyIdentityProvider_creates_witness :
  let request := requestOn bound None in
  let s' :=
    state_after
      (ldapidentityprovider.ApplyIdentityProvider urlDependencies
         (reconciler None None) request) start in
  count_calls ldapidentityprovider.isCreate (calls s') =
    count_calls ldapidentityprovider.isCreate (calls start) + 1 /\
  count_calls ldapidentityprovider.isUpdate (calls s') =
    count_calls ldapidentityprovider.isUpdate (calls start) /\
  exists rest,
    calls s' =
      calls start ++
      ldapidentityprovider.OCMCall (ocm.CreateCall ldapClient (ocmv1alpha1.Spec bound))
      :: rest /\
    count_calls ldapidentityprovider.isCreate rest = 0.
Proof.
  exact (ApplyIdentityProvider_creates urlDependencies (reconciler None None)
           (requestOn bound None) start eq_refl).
Defined.

Lemma GetCurrentState_Get_failed_witness :
  ldapidentityprovider.GetCurrentState urlDependencies unreachable
    (requestOn bound None) start =
    ((requestOn bound None,
      (controllers.RequeueAfter ldapidentityprovider.defaultLDAPIdentityProviderRequeue,
       Some (Errorf "unable to retrieve identity provider from ocm - "
               (New "connection refused")))),
     mkLogged tt [ldapidentityprovider.OCMCall (ocm.GetCall ldapClient)]).
Proof.
  refine (GetCurrentState_Get_failed urlDependencies unreachable
            (requestOn bound None) start "c-1" start (New "connection refused") tt
            _ eq_refl).
  split; [discriminate|]. left. split; reflexivity.
Defined.

Lemma GetCurrentState_copies_desired_fields_witness :
  ocmv1alpha1.ClusterName (ocmv1alpha1.Spec (observed "claim")) = "cluster" /\
  ocmv1alpha1.DisplayName (ocmv1alpha1.Spec (observed "claim")) = "ldap" /\
  ocmv1alpha1.BindPassword_Name (ocmv1alpha1.Spec (observed "claim")) = "bind" /\
  ocmv1alpha1.CA_Name (ocmv1alpha1.Spec (observed "claim")) = "ca".
Proof.
  refine (GetCurrentState_copies_desired_fields urlDependencies
            (reconciler (Some remote) None) (requestOn unbound None) start
            (observed "claim") _ eq_refl eq_refl).
  intros o remote. repeat split.
Defined.

(** * More on the dispatcher and the finalizers *)

Section DispatcherCalls.
Import controllers.
Context {W Req Obj : Type} `{Request Req Obj}.
Variable tr : triggers.Package.
Variable GetTrigger : Obj -> triggers.Trigger tr.
Variable IsNotFound : error -> bool.
Variable controller : Controller W Req.

(** Whatever the controller answers and whatever the three strings are,
    [Reconcile] calls [NewRequest] first and once, and after it at most
    one pipeline; when it runs no pipeline its result is the blank one. *)
Theorem Reconcile_at_most_one_pipeline (req : ctrl.Request)
    (s : Logged W (Invocation Req)) :
  let run := Reconcile tr GetTrigger IsNotFound controller req s in
  exists made : list (Invocation Req),
    calls (snd run) = calls s ++ NewRequestCall req :: made /\
    (made = [] \/ exists c, made = [c] /\ isPipeline c = true) /\
    (made = [] -> fst (fst run) = NoRequeue).
Proof.
  intros run. subst run. unfold Reconcile, bind, call.
  destruct (NewRequest controller req (world s)) as [[request|err] w1]; simpl.
  - repeat case_bool_decide; simpl.
    + destruct (ReconcileCreate controller request w1) as [a w2]. simpl.
      eexists [_]. split; [rewrite <- app_assoc; reflexivity|].
      split; [right; eexists; split; reflexivity | discriminate].
    + destruct (ReconcileUpdate controller request w1) as [a w2]. simpl.
      eexists [_]. split; [rewrite <- app_assoc; reflexivity|].
      split; [right; eexists; split; reflexivity | discriminate].
    + destruct (ReconcileDelete controller request w1) as [a w2]. simpl.
      eexists [_]. split; [rewrite <- app_assoc; reflexivity|].
      split; [right; eexists; split; reflexivity | discriminate].
    + exists []. auto.
  - exists []. destruct (IsNotFound err); simpl; auto.
Qed.

End DispatcherCalls.

(** ** The token *)

Lemma lower_idempotent (c : ascii) : strings.lower (strings.lower c) = strings.lower c.
Proof. destruct c as [[] [] [] [] [] [] [] []]; reflexivity. Qed.

Lemma ToLower_idempotent (s : string) : strings.ToLower (strings.ToLower s) = strings.ToLower s.
Proof.
  induction s as [|c s IH]; simpl; [reflexivity|].
  rewrite lower_idempotent, IH. reflexivity.
Qed.

Lemma ToLower_append (a b : string) :
  strings.ToLower (a +:+ b) = strings.ToLower a +:+ strings.ToLower b.
Proof. induction a as [|c a IH]; simpl; [reflexivity|]. rewrite IH. reflexivity. Qed.

Lemma isASCII_append (a b : string) :
  strings.isASCII (a +:+ b) = strings.isASCII a && strings.isASCII b.
Proof.
  induction a as [|c a IH]; simpl; [reflexivity|].
  rewrite IH. apply andb_assoc.
Qed.

Lemma lower_ascii (c : ascii) :
  (nat_of_ascii (strings.lower c) <? 128)%nat = (nat_of_ascii c <? 128)%nat.
Proof. destruct c as [[] [] [] [] [] [] [] []]; reflexivity. Qed.

Lemma isASCII_ToLower (s : string) :
  strings.isASCII (strings.ToLower s) = strings.isASCII s.
Proof.
  induction s as [|c s IH]; simpl; [reflexivity|].
  rewrite lower_ascii, IH. reflexivity.
Qed.

Section Token.
Import controllers.
Context {T : Type} `{ClientObject T}.

(** The token is the lower-case kind, a dot, the lower-case group and
    "/finalizer". *)
Lemma FinalizerName_parts (object : T) :
  FinalizerName object =
  strings.ToLower (GetKind object) +:+ "." +:+
  strings.ToLower (GetGroup object) +:+ "/finalizer".
Proof. unfold FinalizerName. rewrite !ToLower_append. reflexivity. Qed.

(** For kinds and groups made of ASCII characters, where [ToLower] is
    Go's: two objects whose kinds and whose groups differ in the case of
    their letters only have the same token, and the token is ASCII text in
    lower case. *)
Theorem FinalizerName_case_insensitive (a b : T) :
  strings.isASCII (GetKind a) = true ->
  strings.isASCII (GetGroup a) = true ->
  strings.isASCII (GetKind b) = true ->
  strings.isASCII (GetGroup b) = true ->
  strings.ToLower (GetKind a) = strings.ToLower (GetKind b) ->
  strings.ToLower (GetGroup a) = strings.ToLower (GetGroup b) ->
  FinalizerName a = FinalizerName b /\
  strings.ToLower (FinalizerName a) = FinalizerName a /\
  strings.isASCII (FinalizerName a) = true.
Proof.
  intros Ka Ga Kb Gb K G. split; [|split].
  - rewrite !FinalizerName_parts, K, G. reflexivity.
  - unfold FinalizerName. apply ToLower_idempotent.
  - rewrite FinalizerName_parts.
    rewrite !isASCII_append, !isASCII_ToLower, Ka, Ga. reflexivity.
Qed.

End Token.

(** ** Adding and removing *)

Lemma filter_absent (token : string) (l : list string) :
  token ∉ l -> filter (fun e => e <> token) l = l.
Proof.
  induction l as [|x l IH]; intros NotIn; [reflexivity|].
  rewrite filter_cons.
  destruct (decide (x <> token)) as [Ne|Eq].
  - f_equal. apply IH. intros In. apply NotIn. right. exact In.
  - exfalso. apply NotIn. destruct (decide (x = token)) as [->|Ne]; [left|tauto].
Qed.

Section AddRemove.
Import controllers.
Context {W T : Type} `{ClientObject T}.
Variable store : kubernetes.Client W T.

(** On an object without its token, [AddFinalizer] followed by
    [RemoveFinalizer] leaves the finalizers as they were and sends two
    patches, whatever the store answers. *)
Theorem AddFinalizer_RemoveFinalizer_round_trip
    (object : T) (s : Logged W (kubernetes.Call T)) :
  FinalizerName object ∉ GetFinalizers object ->
  let r := kubernetes.recording store in
  let added := AddFinalizer r object s in
  let removed := RemoveFinalizer r (fst (fst added)) (snd added) in
  GetFinalizers (fst (fst removed)) = GetFinalizers object /\
  kubernetes.patches (snd removed) = kubernetes.patches s + 2.
Proof.
  intros NotIn r added removed.
  subst removed added.
  rewrite (AddFinalizer_absent r object s NotIn). simpl.
  set (token := FinalizerName object).
  set (o1 := controllerutil.AddFinalizer object token).
  assert (In1 : FinalizerName o1 ∈ GetFinalizers o1).
  { subst o1. rewrite FinalizerName_added. apply added_present. }
  rewrite (RemoveFinalizer_present r o1 _ In1). simpl.
  assert (Name1 : FinalizerName o1 = token).
  { subst o1. apply FinalizerName_added. }
  rewrite Name1. split.
  - unfold controllerutil.RemoveFinalizer. rewrite GetFinalizers_SetFinalizers.
    subst o1. unfold controllerutil.AddFinalizer.
    rewrite bool_decide_eq_false_2 by exact NotIn.
    rewrite GetFinalizers_SetFinalizers, filter_app, (filter_absent token _ NotIn).
    rewrite filter_cons, filter_nil.
    destruct (decide (token <> token)) as [Ne|_]; [tauto|].
    apply app_nil_r.
  - subst r. unfold kubernetes.recording, kubernetes.logged. simpl. unfold call.
    destruct (kubernetes.Patch store o1 object (world s)) as [e1 w1]. simpl.
    destruct (kubernetes.Patch store _ o1 w1) as [e2 w2]. simpl.
    unfold kubernetes.patches. simpl.
    rewrite !count_calls_snoc. simpl. lia.
Qed.

(** After [RemoveFinalizer], whatever the store answered, the object does
    not carry its token, carries every other finalizer it had and nothing
    else, and a second [RemoveFinalizer] makes no call and succeeds. *)
Theorem RemoveFinalizer_effect (object : T) (s : Logged W (kubernetes.Call T)) :
  let r := kubernetes.recording store in
  let removed := RemoveFinalizer r object s in
  let left := fst (fst removed) in
  (FinalizerName left ∉ GetFinalizers left) /\
  (forall f : string,
     f ∈ GetFinalizers left <-> f ∈ GetFinalizers object /\ f <> FinalizerName object) /\
  RemoveFinalizer r left (snd removed) = ((left, None), snd removed).
Proof.
  intros r removed left.
  assert (Gone : (FinalizerName left ∉ GetFinalizers left) /\
                 forall f : string,
                   f ∈ GetFinalizers left <->
                   f ∈ GetFinalizers object /\ f <> FinalizerName object).
  { subst left removed.
    destruct (decide (FinalizerName object ∈ GetFinalizers object)) as [In|NotIn].
    - rewrite (RemoveFinalizer_present r object s In). simpl.
      unfold controllerutil.RemoveFinalizer.
      rewrite FinalizerName_SetFinalizers, GetFinalizers_SetFinalizers.
      split.
      + intros In'. apply list_elem_of_filter in In'. tauto.
      + intros f. rewrite list_elem_of_filter. tauto.
    - rewrite (RemoveFinalizer_absent r object s NotIn). simpl.
      split; [exact NotIn|].
      intros f. split.
      + intros In. split; [exact In|]. intros ->. tauto.
      + tauto. }
  destruct Gone as [Gone Kept].
  split; [exact Gone|]. split; [exact Kept|].
  apply RemoveFinalizer_absent. exact Gone.
Qed.

End AddRemove.

Section PatchRefused.
Import controllers.
Context {S T : Type} `{ClientObject T}.
Variable r : kubernetes.Client S T.

(** When the store refuses the patch of [AddFinalizer], the function
    returns the store's error, wrapped, and the object in memory carries
    the token all the same: [AddFinalizer] called again on it sends nothing
    to the store and succeeds. *)
Theorem AddFinalizer_patch_refused (object : T) (s s' : S) (err : error) :
  FinalizerName object ∉ GetFinalizers object ->
  let added := controllerutil.AddFinalizer object (FinalizerName object) in
  kubernetes.Patch r added object s = (Some err, s') ->
  AddFinalizer r object s =
    ((added, Some (Errorf "unable to add finalizer - " err)), s') /\
  Is (Errorf "unable to add finalizer - " err) err = true /\
  FinalizerName added ∈ GetFinalizers added /\
  AddFinalizer r added s' = ((added, None), s').
Proof.
  intros NotIn added Refused.
  assert (In1 : FinalizerName added ∈ GetFinalizers added).
  { subst added. rewrite FinalizerName_added. apply added_present. }
  split; [|split; [|split]].
  - rewrite (AddFinalizer_absent r object s NotIn). fold added.
    rewrite Refused. reflexivity.
  - apply Is_Errorf, Is_refl.
  - exact In1.
  - apply AddFinalizer_present. exact In1.
Qed.

End PatchRefused.

(** * More on the phases *)

(** Runs a phase: its definition is unfolded and every answer of the world
    is split into its cases. *)
Ltac run_phase :=
  unfold ldapidentityprovider.GetCurrentState,
    ldapidentityprovider.ApplyIdentityProvider, ldapidentityprovider.Destroy,
    ldapidentityprovider.CompleteDestroy, ldapidentityprovider.Begin,
    ldapidentityprovider.Complete, ldapidentityprovider.updateCondition,
    controllers.RemoveFinalizer, kubernetes.PatchStatus,
    ldapidentityprovider.client, kubernetes.logged,
    ldapidentityprovider.onOCM, ldapidentityprovider.reading, call, bind, ret;
  simpl;
  repeat match goal with
         | |- context [match ?x with _ => _ end] =>
             lazymatch x with
             | context [match _ with _ => _ end] => fail
             | _ => destruct x; simpl
             end
         end.

(** Counts the calls of a log that grew by single calls. *)
Ltac count_log :=
  repeat rewrite count_calls_snoc; simpl; try lia.

Section CurrentStateMore.
Import ocmv1alpha1 ldapidentityprovider controllers.
Context {W L R B : Type} `{EqDecision L}.
Variable deps : Dependencies L R B.
Variable r : ldapidentityprovider.Controller W L R B.

(** When the status records no cluster id and OCM cannot give one (the
    lookup fails, or the cluster it returns has an empty id),
    [GetCurrentState] stops there: it asks for a requeue after the default
    interval and returns the lookup's error wrapped with the cluster's
    name, or [ErrMissingClusterID] wrapped; it leaves the request as it
    was and has made the cluster lookup only. *)
Theorem GetCurrentState_cluster_unresolved
    (request : LDAPIdentityProviderRequest L) (s : Logged W (Call L B))
    (cluster : string + error) (w1 : W) :
  ClusterID (Status (Original request)) = "" ->
  ocm.ClusterGet (Connection r) (ClusterName (Spec (Desired request))) (world s) =
    (cluster, w1) ->
  cluster = inl "" \/ (exists err : error, cluster = inr err) ->
  let wrapped :=
    match cluster with
    | inr err =>
        wrapError
          (("unable to retrieve cluster from ocm [name=" +:+
            ClusterName (Spec (Desired request)) +:+ "] - ") +:+ Error err)
          err
    | inl _ =>
        wrapError
          ("missing cluster id in response - " +:+ Error (ErrMissingClusterID deps))
          (ErrMissingClusterID deps)
    end in
  GetCurrentState deps r request s =
    ((request, (RequeueAfter defaultLDAPIdentityProviderRequeue, Some wrapped)),
     mkLogged w1
       (calls s ++ [OCMCall (ocm.ClusterGetCall (ClusterName (Spec (Desired request))))])) /\
  Unwrap wrapped =
    Some match cluster with
         | inr err => err
         | inl _ => ErrMissingClusterID deps
         end.
Proof.
  intros Unset Answer Unresolved wrapped. subst wrapped.
  unfold GetCurrentState. rewrite Unset.
  rewrite bool_decide_eq_true_2 by reflexivity.
  unfold bind at 1. unfold bind at 1. unfold onOCM at 1.
  rewrite (call_run _ _ _ _ _ Answer).
  destruct Unresolved as [->|[err ->]].
  - rewrite bool_decide_eq_true_2 by reflexivity. split; reflexivity.
  - split; reflexivity.
Qed.

(** When the status records a cluster id, [GetCurrentState] does not look
    the cluster up: its first call is the lookup of the identity provider
    named by the desired display name on the recorded cluster, and the
    request keeps the client of that lookup, whatever happens next. *)
Theorem GetCurrentState_recorded_cluster_id
    (request : LDAPIdentityProviderRequest L) (s : Logged W (Call L B)) :
  ClusterID (Status (Original request)) <> "" ->
  let run := GetCurrentState deps r request s in
  let ocmClient :=
    ocm.NewIdentityProviderClient
      (DisplayName (Spec (Desired request))) (ClusterID (Status (Original request))) in
  count_calls isClusterGet (calls (snd run)) = count_calls isClusterGet (calls s) /\
  OCMClient (fst (fst run)) = ocmClient /\
  exists rest, calls (snd run) = calls s ++ OCMCall (ocm.GetCall ocmClient) :: rest.
Proof.
  intros Recorded run ocmClient. subst run ocmClient.
  unfold GetCurrentState.
  rewrite bool_decide_eq_false_2 by exact Recorded.
  run_phase; (split; [count_log|]); (split; [reflexivity|]);
    rewrite <- ?app_assoc; simpl; eexists; reflexivity.
Qed.

(** [GetCurrentState] reads and records, it does not write to OCM: it
    never calls [Create], [Update] or [Delete], registers no event and
    never patches the object itself (as opposed to its status); it looks
    the cluster and the identity provider up at most once each and sends
    at most one status patch.  The desired state and the secrets of the
    request are as they were. *)
Theorem GetCurrentState_never_writes
    (request : LDAPIdentityProviderRequest L) (s : Logged W (Call L B)) :
  let run := GetCurrentState deps r request s in
  let before (p : Call L B -> bool) := count_calls p (calls s) in
  let after (p : Call L B -> bool) := count_calls p (calls (snd run)) in
  after isCreate = before isCreate /\
  after isUpdate = before isUpdate /\
  after isDelete = before isDelete /\
  after isEvent = before isEvent /\
  after isPatch = before isPatch /\
  after isClusterGet <= before isClusterGet + 1 /\
  after isGet <= before isGet + 1 /\
  after isStatusPatch <= before isStatusPatch + 1 /\
  Desired (fst (fst run)) = Desired request /\
  DesiredCA (fst (fst run)) = DesiredCA request /\
  DesiredBindPassword (fst (fst run)) = DesiredBindPassword request.
Proof.
  intros run before after. subst run before after.
  run_phase; repeat split; count_log.
Qed.

End CurrentStateMore.

Section ApplyMore.
Import ocmv1alpha1 ldapidentityprovider controllers.
Context {W L R B : Type} `{EqDecision L}.
Variable deps : Dependencies L R B.
Variable r : ldapidentityprovider.Controller W L R B.

(** When the write to OCM fails ([Create] if there is no current state,
    [Update] if there is one), [ApplyIdentityProvider] asks for a requeue
    after the default interval and returns the error of the write,
    wrapped; the write is its only call, so no event is registered. *)
Theorem ApplyIdentityProvider_write_failed
    (request : LDAPIdentityProviderRequest L) (s : Logged W (Call L B))
    (err : error) (w1 : W) :
  desired request = false ->
  let builder :=
    Builder deps (Desired request) (DesiredCA request) (DesiredBindPassword request) in
  match Current request with
  | None => ocm.Create (Connection r) (OCMClient request) builder (world s)
  | Some _ => ocm.Update (Connection r) (OCMClient request) builder (world s)
  end = (Some err, w1) ->
  exists wrapped : error,
    ApplyIdentityProvider deps r request s =
      ((request, (RequeueAfter defaultLDAPIdentityProviderRequeue, Some wrapped)),
       mkLogged w1
         (calls s ++
          [OCMCall
             match Current request with
             | None => ocm.CreateCall (OCMClient request) builder
             | Some _ => ocm.UpdateCall (OCMClient request) builder
             end])) /\
    Unwrap wrapped = Some err.
Proof.
  intros N builder Failed.
  unfold ApplyIdentityProvider. rewrite N. fold builder.
  destruct (Current request) as [current|]; unfold bind, onOCM, call;
    rewrite Failed; eexists; split; reflexivity.
Qed.

(** [ApplyIdentityProvider] leaves the request as it was.  It writes to
    OCM once when the request is not in its desired state ([Create] if
    there is no current state, [Update] if there is one) and not at all
    when it is; it registers an event exactly when it wrote and the write
    answered nil, and returns the write's error, wrapped, with a requeue
    exactly when the write answered an error.  It never calls [Delete],
    looks nothing up and sends no patch. *)
Theorem ApplyIdentityProvider_frame
    (request : LDAPIdentityProviderRequest L) (s : Logged W (Call L B)) :
  let run := ApplyIdentityProvider deps r request s in
  let before (p : Call L B -> bool) := count_calls p (calls s) in
  let after (p : Call L B -> bool) := count_calls p (calls (snd run)) in
  let builder :=
    Builder deps (Desired request) (DesiredCA request) (DesiredBindPassword request) in
  let answer :=
    fst match Current request with
        | None => ocm.Create (Connection r) (OCMClient request) builder (world s)
        | Some _ => ocm.Update (Connection r) (OCMClient request) builder (world s)
        end in
  fst (fst run) = request /\
  after isCreate =
    before isCreate +
    (if desired request then 0 else match Current request with None => 1 | Some _ => 0 end) /\
  after isUpdate =
    before isUpdate +
    (if desired request then 0 else match Current request with None => 0 | Some _ => 1 end) /\
  after isEvent =
    before isEvent +
    (if desired request then 0
     else match answer with None => 1 | Some _ => 0 end) /\
  snd (fst run) =
    (if desired request then (NoRequeue, None)
     else match answer with
          | None => (NoRequeue, None)
          | Some err =>
              (RequeueAfter defaultLDAPIdentityProviderRequeue,
               Some (Errorf
                       match Current request with
                       | None => "unable to create ldap identity provider in ocm - "
                       | Some _ => "unable to update ldap identity provider in ocm - "
                       end
                       err))
          end) /\
  after isDelete = before isDelete /\
  after isGet = before isGet /\
  after isClusterGet = before isClusterGet /\
  after isPatch = before isPatch /\
  after isStatusPatch = before isStatusPatch.
Proof.
  intros run before after builder answer. subst run before after answer.
  unfold ApplyIdentityProvider. fold builder.
  destruct (desired request); [simpl; repeat split; lia|].
  destruct (Current request) as [current|]; unfold bind, onOCM, call; simpl.
  - destruct (ocm.Update (Connection r) (OCMClient request) builder (world s))
      as [[err|] w1]; simpl; repeat split; count_log.
  - destruct (ocm.Create (Connection r) (OCMClient request) builder (world s))
      as [[err|] w1]; simpl; repeat split; count_log.
Qed.

End ApplyMore.

Section DestroyMore.
Import metav1 ocmv1alpha1 ldapidentityprovider controllers.
Context {W L R B : Type} `{EqDecision L}.
Variable deps : Dependencies L R B.
Variable r : ldapidentityprovider.Controller W L R B.

(** What [Destroy] does is decided by its guard, by the answer of
    [Delete] and by the answer of the status patch.  With the guard true
    it makes no call and returns the blank result.  With the guard false
    it calls [Delete]; when [Delete] answers an error that call is the
    only one and the result is a requeue with a nil error; when [Delete]
    answers nil the Deleted event and one status patch follow, in this
    order, and the result is the blank one if the patch answers nil and a
    requeue with the patch's error, wrapped, if not.  So the event is
    registered and the condition recorded only after [Delete] succeeded.
    The desired and the current state of the request are as they were. *)
Theorem Destroy_calls (request : LDAPIdentityProviderRequest L)
    (s : Logged W (Call L B)) :
  let run := Destroy deps r request s in
  let ocmClient :=
    ocm.NewIdentityProviderClient
      (DisplayName (Spec (Desired request))) (ClusterID (Status (Original request))) in
  let delete := OCMCall (ocm.DeleteCall ocmClient (ProviderID (Status (Original request)))) in
  let event :=
    RegisterAction events.Deleted (Original request)
      [DisplayName (Spec (Desired request)); ClusterID (Status (Original request))] in
  let deleting :=
    ocm.Delete (Connection r) ocmClient (ProviderID (Status (Original request)))
      (snd (Now r (world s))) in
  let condition := MachinePoolDeleted r (snd deleting) in
  let stamp := Now r (snd condition) in
  let updated :=
    SetConditions
      (conditions.SetCondition (fst stamp) (GetConditions (Original request))
         (fst condition))
      (Original request) in
  let patch := kubernetes.StatusPatch (Client r) updated (Original request) (snd stamp) in
  Desired (fst (fst run)) = Desired request /\
  Current (fst (fst run)) = Current request /\
  (if deleted deps (Original request) then
     calls (snd run) = calls s /\
     Original (fst (fst run)) = Original request /\
     snd (fst run) = (NoRequeue, None)
   else
     match fst deleting with
     | Some _ =>
         calls (snd run) = calls s ++ [delete] /\
         Original (fst (fst run)) = Original request /\
         snd (fst run) = (RequeueAfter defaultLDAPIdentityProviderRequeue, None)
     | None =>
         calls (snd run) =
           calls s ++
           [delete; event;
            K8sCall (kubernetes.StatusPatchCall updated (Original request))] /\
         Original (fst (fst run)) = updated /\
         snd (fst run) =
           match fst patch with
           | None => (NoRequeue, None)
           | Some err =>
               (RequeueAfter defaultLDAPIdentityProviderRequeue,
                Some (Errorf "error updating reconciling condition - " err))
           end
     end).
Proof.
  intros run ocmClient delete event deleting condition stamp updated patch.
  subst run delete event patch updated stamp condition deleting.
  unfold Destroy, bind, reading.
  destruct (Now r (world s)) as [now w1]. simpl.
  rewrite IsSet_IdentityProviderDeleted.
  destruct (deleted deps (Original request)); simpl.
  - repeat split.
  - unfold onOCM, call. simpl. fold ocmClient.
    destruct (ocm.Delete (Connection r) ocmClient _ w1) as [[err|] w2]; simpl.
    + repeat split.
    + destruct (MachinePoolDeleted r w2) as [condition w3]. simpl.
      unfold updateCondition, bind, reading. simpl.
      destruct (Now r w3) as [now' w4]. simpl.
      unfold kubernetes.PatchStatus, client, kubernetes.logged, call. simpl.
      unfold DeepCopy.
      destruct (kubernetes.StatusPatch (Client r) _ _ w4) as [[err|] w5]; simpl;
        repeat split; rewrite <- !app_assoc; reflexivity.
Qed.

(** Once [IdentityProviderDeleted] is recorded on the object through
    [updateCondition], the guard of [Destroy] holds on it, whatever
    conditions the object carried before and whatever the store answered
    to the patch. *)
Theorem IdentityProviderDeleted_guards (request : LDAPIdentityProviderRequest L)
    (s : Logged W (Call L B)) (now : Time) :
  deleted deps
    (Original
       (fst (fst (updateCondition r request
                    (conditions.IdentityProviderDeleted (Triggers deps) now) s)))) = true.
Proof.
  rewrite updateCondition_Original.
  unfold deleted, conditions.IsSet. simpl.
  generalize (fst (Now r (world s))). intros stamp.
  induction (Conditions (Status (Original request))) as [|c rest IH]; simpl.
  - reflexivity.
  - destruct (bool_decide (Type_ c = conditions.identityProviderConditionTypeDeleted))
      eqn:SameType; simpl.
    + apply bool_decide_eq_true in SameType.
      destruct (bool_decide (metav1.Status c = ConditionTrue)) eqn:SameStatus; simpl.
      * apply bool_decide_eq_true in SameStatus.
        rewrite (bool_decide_eq_true_2 _ (eq_sym SameType)).
        rewrite (bool_decide_eq_true_2 _ (eq_sym SameStatus)). reflexivity.
      * reflexivity.
    + rewrite IH. apply orb_true_r.
Qed.

End DestroyMore.

Section Lifecycle.
Import metav1 ocmv1alpha1 ldapidentityprovider controllers.
Context {W L R B : Type} `{EqDecision L}.
Variable deps : Dependencies L R B.
Variable r : ldapidentityprovider.Controller W L R B.
Variable progress : Progress W.

(** [Begin] sends one status patch and nothing else: the patch of the
    object with the reconciling condition set at the time read from the
    clock, against a copy of the object as it was.  The request leaves
    with that updated object as its original, and with its desired and
    current state as they were.  The result follows the answer of the
    patch: the blank result and a nil error when it answers nil, a requeue
    after the default interval with the answer wrapped under "error
    updating reconciling condition" when it answers an error. *)
Theorem Begin_outcome (request : LDAPIdentityProviderRequest L)
    (s : Logged W (Call L B)) :
  let run := Begin r progress request s in
  let condition := Reconciling progress (world s) in
  let stamp := Now r (snd condition) in
  let updated :=
    SetConditions
      (conditions.SetCondition (fst stamp) (GetConditions (Original request))
         (fst condition))
      (Original request) in
  let patch := kubernetes.StatusPatch (Client r) updated (Original request) (snd stamp) in
  calls (snd run) =
    calls s ++ [K8sCall (kubernetes.StatusPatchCall updated (Original request))] /\
  world (snd run) = snd patch /\
  Original (fst (fst run)) = updated /\
  Desired (fst (fst run)) = Desired request /\
  Current (fst (fst run)) = Current request /\
  snd (fst run) =
    match fst patch with
    | None => (NoRequeue, None)
    | Some err =>
        (RequeueAfter defaultLDAPIdentityProviderRequeue,
         Some (Errorf "error updating reconciling condition - " err))
    end.
Proof.
  intros run condition stamp updated patch.
  subst run patch updated stamp condition.
  unfold Begin, bind, reading.
  destruct (Reconciling progress (world s)) as [condition w1]. simpl.
  unfold updateCondition, bind, reading. simpl.
  destruct (Now r w1) as [now w2]. simpl.
  unfold kubernetes.PatchStatus, client, kubernetes.logged, call. simpl.
  unfold DeepCopy.
  destruct (kubernetes.StatusPatch (Client r) _ _ w2) as [[err|] w3]; simpl;
    repeat split.
Qed.

(** [Complete] always asks to be run again, and how follows the answer of
    its one status patch (the patch of the object with the reconciled
    condition set at the time read from the clock): after the reconciler's
    interval, with a nil error, when the patch answers nil, and after the
    default interval, with the answer wrapped under "error updating
    reconciled condition", when it answers an error.  It makes no other
    call; the request leaves with the updated object as its original and
    its desired and current state as they were. *)
Theorem Complete_requeues (request : LDAPIdentityProviderRequest L)
    (s : Logged W (Call L B)) :
  let run := Complete r progress request s in
  let condition := Reconciled progress (world s) in
  let stamp := Now r (snd condition) in
  let updated :=
    SetConditions
      (conditions.SetCondition (fst stamp) (GetConditions (Original request))
         (fst condition))
      (Original request) in
  let patch := kubernetes.StatusPatch (Client r) updated (Original request) (snd stamp) in
  ctrl.Requeue (fst (snd (fst run))) = true /\
  calls (snd run) =
    calls s ++ [K8sCall (kubernetes.StatusPatchCall updated (Original request))] /\
  world (snd run) = snd patch /\
  Original (fst (fst run)) = updated /\
  Desired (fst (fst run)) = Desired request /\
  Current (fst (fst run)) = Current request /\
  snd (fst run) =
    match fst patch with
    | None => (RequeueAfter (Interval r), None)
    | Some err =>
        (RequeueAfter defaultLDAPIdentityProviderRequeue,
         Some (Errorf "error updating reconciled condition - " err))
    end.
Proof.
  intros run condition stamp updated patch.
  subst run patch updated stamp condition.
  unfold Complete, bind, reading.
  destruct (Reconciled progress (world s)) as [condition w1]. simpl.
  unfold updateCondition, bind, reading. simpl.
  destruct (Now r w1) as [now w2]. simpl.
  unfold kubernetes.PatchStatus, client, kubernetes.logged, call. simpl.
  unfold DeepCopy.
  destruct (kubernetes.StatusPatch (Client r) _ _ w2) as [[err|] w3]; simpl;
    repeat split.
Qed.

(** No phase returns an error beside the blank result: whenever one of
    the six phases returns an error, its result is a requeue after the
    default interval. *)
Theorem phases_requeue_on_error (request : LDAPIdentityProviderRequest L)
    (s : Logged W (Call L B)) :
  requeues_on_error (fst (Begin r progress request s)) /\
  requeues_on_error (fst (GetCurrentState deps r request s)) /\
  requeues_on_error (fst (ApplyIdentityProvider deps r request s)) /\
  requeues_on_error (fst (Complete r progress request s)) /\
  requeues_on_error (fst (Destroy deps r request s)) /\
  requeues_on_error (fst (CompleteDestroy r request s)).
Proof.
  unfold requeues_on_error.
  repeat split; run_phase; intros err Failed; try discriminate Failed; reflexivity.
Qed.

End Lifecycle.

Section FirstPass.
Import ocmv1alpha1 ldapidentityprovider controllers.
Context {W L R B : Type} `{EqDecision L}.
Variable deps : Dependencies L R B.
Variable r : ldapidentityprovider.Controller W L R B.

(** [GetCurrentState] followed by [ApplyIdentityProvider] when OCM has no
    such identity provider: [Create] is called with the client that
    [GetCurrentState] built, that is on the cluster id it resolved, and
    with the desired state's builder.  The Created event that follows a
    successful [Create] carries the cluster id recorded in the status,
    which [GetCurrentState] has not touched: it is empty when the id had
    to be looked up. *)
Theorem GetCurrentState_then_ApplyIdentityProvider
    (request : LDAPIdentityProviderRequest L) (s : Logged W (Call L B))
    (clusterID : string) (s1 : Logged W (Call L B)) (w2 : W) :
  Current request = None ->
  resolves r request s clusterID s1 ->
  let ocmClient :=
    ocm.NewIdentityProviderClient (DisplayName (Spec (Desired request))) clusterID in
  ocm.Get (Connection r) ocmClient (world s1) = (inl None, w2) ->
  let found := GetCurrentState deps r request s in
  let applied := ApplyIdentityProvider deps r (fst (fst found)) (snd found) in
  let builder :=
    Builder deps (Desired request) (DesiredCA request) (DesiredBindPassword request) in
  let create := OCMCall (ocm.CreateCall ocmClient builder) in
  let event :=
    RegisterAction events.Created (Original request)
      [DisplayName (Spec (Desired request)); ClusterID (Status (Original request))] in
  (snd (snd (fst applied)) = None /\
   calls (snd applied) = calls s1 ++ [OCMCall (ocm.GetCall ocmClient); create; event]) \/
  (snd (snd (fst applied)) <> None /\
   calls (snd applied) = calls s1 ++ [OCMCall (ocm.GetCall ocmClient); create]).
Proof.
  intros Unset Res ocmClient Absent found applied builder create event.
  subst applied found.
  rewrite (GetCurrentState_resolved deps r request s clusterID s1 Res).
  fold ocmClient. unfold onOCM.
  rewrite (bind_run _ _ _ _ _ (call_run _ _ _ _ _ Absent)).
  simpl. unfold ApplyIdentityProvider, desired. simpl. rewrite Unset.
  fold builder. unfold bind, onOCM, call. simpl.
  destruct (ocm.Create (Connection r) ocmClient builder w2) as [[err|] w3]; simpl.
  - right. split; [discriminate|]. rewrite <- app_assoc. reflexivity.
  - left. split; [reflexivity|]. rewrite <- !app_assoc. reflexivity.
Qed.

End FirstPass.

Section Fake.
Import controllers.
Context {S T : Type} `{ClientObject T}.

(** On the fake client [AddFinalizer] and [RemoveFinalizer] never fail
    and leave the state of the world alone; the object carries its token
    after the first and does not carry it after the second. *)
Theorem FakeClient_finalizers (object : T) (s : S) :
  let added := AddFinalizer kubernetes.FakeClient object s in
  let removed := RemoveFinalizer kubernetes.FakeClient object s in
  snd (fst added) = None /\ snd added = s /\
  FinalizerName object ∈ GetFinalizers (fst (fst added)) /\
  snd (fst removed) = None /\ snd removed = s /\
  (FinalizerName object ∉ GetFinalizers (fst (fst removed))).
Proof.
  intros added removed. subst added removed.
  destruct (decide (FinalizerName object ∈ GetFinalizers object)) as [In|NotIn].
  - rewrite (AddFinalizer_present kubernetes.FakeClient object s In).
    rewrite (RemoveFinalizer_present kubernetes.FakeClient object s In). simpl.
    repeat split; auto. apply removed_absent.
  - rewrite (AddFinalizer_absent kubernetes.FakeClient object s NotIn).
    rewrite (RemoveFinalizer_absent kubernetes.FakeClient object s NotIn). simpl.
    repeat split; auto. apply added_present.
Qed.

End Fake.

(** * More theorems on the worked instances *)

Lemma FinalizerName_case_insensitive_witness :
  let shouted :=
    ocmv1alpha1.mkLDAPIdentityProvider "LDAPIDENTITYPROVIDER" "OCM.Mobb.RedHat.com" []
      (ocmv1alpha1.Spec finalized) (ocmv1alpha1.Status finalized) in
  controllers.FinalizerName finalized = controllers.FinalizerName shouted /\
  strings.ToLower (controllers.FinalizerName finalized) =
    controllers.FinalizerName finalized /\
  strings.isASCII (controllers.FinalizerName finalized) = true.
Proof.
  exact (FinalizerName_case_insensitive finalized
           (ocmv1alpha1.mkLDAPIdentityProvider "LDAPIDENTITYPROVIDER"
              "OCM.Mobb.RedHat.com" []
              (ocmv1alpha1.Spec finalized) (ocmv1alpha1.Status finalized))
           eq_refl eq_refl eq_refl eq_refl eq_refl eq_refl).
Defined.

Lemma AddFinalizer_RemoveFinalizer_round_trip_witness :
  let r := kubernetes.recording (W := unit) kubernetes.FakeClient in
  let s := mkLogged tt [] in
  let added := controllers.AddFinalizer r fresh s in
  let removed := controllers.RemoveFinalizer r (fst (fst added)) (snd added) in
  GetFinalizers (fst (fst removed)) = GetFinalizers fresh /\
  kubernetes.patches (snd removed) = kubernetes.patches s + 2.
Proof.
  refine (AddFinalizer_RemoveFinalizer_round_trip kubernetes.FakeClient fresh
            (mkLogged tt []) _).
  vm_compute. intros In. inversion In.
Defined.

Lemma AddFinalizer_patch_refused_witness :
  let object := ocmv1alpha1.withFinalizers [] bound in
  controllers.AddFinalizer refusing object tt =
    ((bound, Some (Errorf "unable to add finalizer - " (New "conflict"))), tt) /\
  Is (Errorf "unable to add finalizer - " (New "conflict")) (New "conflict") = true /\
  controllers.FinalizerName bound ∈ GetFinalizers bound /\
  controllers.AddFinalizer refusing bound tt = ((bound, None), tt).
Proof.
  refine (AddFinalizer_patch_refused refusing (ocmv1alpha1.withFinalizers [] bound)
            tt tt (New "conflict") _ eq_refl).
  vm_compute. intros In. inversion In.
Defined.

Lemma GetCurrentState_cluster_unresolved_witness :
  let wrapped :=
    wrapError "missing cluster id in response - missing cluster id"
      (errorString "missing cluster id") in
  ldapidentityprovider.GetCurrentState urlDependencies (lost (inl ""))
    (requestOn unbound None) start =
    ((requestOn unbound None,
      (controllers.RequeueAfter ldapidentityprovider.defaultLDAPIdentityProviderRequeue,
       Some wrapped)),
     mkLogged tt [ldapidentityprovider.OCMCall (ocm.ClusterGetCall "cluster")]) /\
  Unwrap wrapped = Some (New "missing cluster id").
Proof.
  refine (GetCurrentState_cluster_unresolved urlDependencies (lost (inl ""))
            (requestOn unbound None) start (inl "") tt eq_refl eq_refl _).
  left. reflexivity.
Defined.

Example GetCurrentState_cluster_lookup_failed :
  ldapidentityprovider.GetCurrentState urlDependencies
    (lost (inr (New "no such cluster"))) (requestOn unbound None) start =
    ((requestOn unbound None,
      (controllers.RequeueAfter ldapidentityprovider.defaultLDAPIdentityProviderRequeue,
       Some (wrapError
               "unable to retrieve cluster from ocm [name=cluster] - no such cluster"
               (errorString "no such cluster")))),
     mkLogged tt [ldapidentityprovider.OCMCall (ocm.ClusterGetCall "cluster")]).
Proof. reflexivity. Qed.

Lemma GetCurrentState_recorded_cluster_id_witness :
  let run :=
    ldapidentityprovider.GetCurrentState urlDependencies (reconciler (Some remote) None)
      (requestOn bound None) start in
  count_calls ldapidentityprovider.isClusterGet (calls (snd run)) =
    count_calls ldapidentityprovider.isClusterGet (calls start) /\
  ldapidentityprovider.OCMClient (fst (fst run)) = ldapClient /\
  exists rest,
    calls (snd run) =
      calls start ++ ldapidentityprovider.OCMCall (ocm.GetCall ldapClient) :: rest.
Proof.
  refine (GetCurrentState_recorded_cluster_id urlDependencies
            (reconciler (Some remote) None) (requestOn bound None) start _).
  discriminate.
Defined.

Lemma ApplyIdentityProvider_write_failed_witness :
  exists wrapped : error,
    ldapidentityprovider.ApplyIdentityProvider urlDependencies readonly
      (requestOn bound (Some (observed "add"))) start =
      ((requestOn bound (Some (observed "add")),
        (controllers.RequeueAfter ldapidentityprovider.defaultLDAPIdentityProviderRequeue,
         Some wrapped)),
       mkLogged tt
         [ldapidentityprovider.OCMCall
            (ocm.UpdateCall ldapClient (ocmv1alpha1.Spec bound))]) /\
    Unwrap wrapped = Some (New "forbidden").
Proof.
  exact (ApplyIdentityProvider_write_failed urlDependencies readonly
           (requestOn bound (Some (observed "add"))) start (New "forbidden") tt
           eq_refl eq_refl).
Defined.

Lemma GetCurrentState_then_ApplyIdentityProvider_witness :
  let r := reconciler None None in
  let found :=
    ldapidentityprovider.GetCurrentState urlDependencies r (requestOn unbound None) start in
  let applied :=
    ldapidentityprovider.ApplyIdentityProvider urlDependencies r (fst (fst found))
      (snd found) in
  let looked := [ldapidentityprovider.OCMCall (ocm.ClusterGetCall "cluster")] in
  let create :=
    ldapidentityprovider.OCMCall (ocm.CreateCall ldapClient (ocmv1alpha1.Spec unbound)) in
  (snd (snd (fst applied)) = None /\
   calls (snd applied) =
     looked ++
     [ldapidentityprovider.OCMCall (ocm.GetCall ldapClient); create;
      ldapidentityprovider.RegisterAction events.Created unbound ["ldap"; ""]]) \/
  (snd (snd (fst applied)) <> None /\
   calls (snd applied) =
     looked ++ [ldapidentityprovider.OCMCall (ocm.GetCall ldapClient); create]).
Proof.
  refine (GetCurrentState_then_ApplyIdentityProvider urlDependencies (reconciler None None)
            (requestOn unbound None) start "c-1"
            (mkLogged tt [ldapidentityprovider.OCMCall (ocm.ClusterGetCall "cluster")])
            tt eq_refl _ eq_refl).
  split; [discriminate|]. right. split; [reflexivity|].
  exists tt. split; reflexivity.
Defined.

Lemma Destroy_only_error_witness :
  ldapidentityprovider.deleted urlDependencies bound = false /\
  fst (ocm.Delete (ldapidentityprovider.Connection (conflicted None None))
         ldapClient "idp-1" tt) = None /\
  exists cause : error,
    fst (kubernetes.StatusPatch refusing destroyed bound tt) = Some cause /\
    wrapError "error updating reconciling condition - conflict" (errorString "conflict") =
    Errorf "error updating reconciling condition - " cause.
Proof.
  exact (Destroy_only_error urlDependencies (conflicted None None)
           (requestOn bound None) start
           (wrapError "error updating reconciling condition - conflict"
              (errorString "conflict"))
           eq_refl).
Defined.

Example Complete_bound :
  fst (ldapidentityprovider.Complete (reconciler None None) updating
         (requestOn bound None) start) =
    (ldapidentityprovider.mkRequest
       (declared
          (ocmv1alpha1.mkStatus "c-1" "idp-1"
             [metav1.mkCondition "Reconciled" metav1.ConditionTrue "Update" "reconciled"
                1700000000%Z]))
       bound None ldapClient "certificate" "password",
     (controllers.RequeueAfter (60 * ctrl.Second)%Z, None)).
Proof. reflexivity. Qed.

Example Begin_conflicted :
  snd (fst (ldapidentityprovider.Begin (conflicted None None) updating
              (requestOn bound None) start)) =
    (controllers.RequeueAfter (30 * ctrl.Second)%Z,
     Some (wrapError "error updating reconciling condition - conflict"
             (errorString "conflict"))).
Proof. reflexivity. Qed.
